(** * Coding-Time-Tracker: the synchronisation core

    A shallow embedding of the read-merge-write path of the VS Code
    extension (coding-time-tracker/src/firebase.ts, class FirebaseManager)
    and of the equivalent merge of the HTTP API (the Tracking model's
    static method mergeTrackingData), followed by the properties the
    specification states about them; then of what surrounds them: the
    set-up and teardown of the manager, the checks of POST /api/track,
    formatDuration and the cached database connection, with properties
    read off the sources.

    Modelling conventions.
    - A JavaScript [number] holding a count of seconds is an integer [Z]:
      the specification's data model gives every count as an integer, and
      integer additions are exact in a double below 2^53.  NaN, infinities
      and fractions are outside the model.
    - A plain object used as a dictionary ([Record<string, number>]) and a
      [Map<string, number>] are both [gmap string Z].  Keys are ordinary
      own properties; names inherited from [Object.prototype] are outside
      the model.
    - A string is a [string] of bytes; [toLowerCase] lowers the ASCII
      letters and leaves every other byte alone.
    - [async]/[await] code is sequential state passing: the specification
      assumes one writer and serial flushes, so nothing interleaves at an
      [await].
    - Console logging has no effect on the state and is left out, as are
      the methods that parse and store credentials ([configure],
      [isConfigured], [getStoredConfig]).  [initialize] and [dispose]
      are modelled with the fate of their Admin SDK calls given from
      outside. *)

From Stdlib Require Import Ascii String ZArith.
From stdpp Require Import gmap strings list fin_maps pretty.

Open Scope Z_scope.

(** ** JavaScript primitives used by the sources *)

Module JS.

(** [v || 0] for a property read [v]: [undefined] and [0] are falsy. *)
Definition or0 (v : option Z) : Z :=
  match v with
  | Some n => if n =? 0 then 0 else n
  | None => 0
  end.

(** [Object.entries(o)] and the entries of a [Map]. *)
Definition entries (o : gmap string Z) : list (string * Z) := map_to_list o.

Definition lowerAscii (c : ascii) : ascii :=
  let n := nat_of_ascii c in
  if ((65 <=? n) && (n <=? 90))%nat then ascii_of_nat (n + 32) else c.

(** [s.toLowerCase()] *)
Fixpoint toLowerCase (s : string) : string :=
  match s with
  | EmptyString => EmptyString
  | String c rest => String (lowerAscii c) (toLowerCase rest)
  end.

(** [s.includes(search)] *)
Fixpoint includes (s search : string) : bool :=
  String.prefix search s ||
  match s with
  | EmptyString => false
  | String _ rest => includes rest search
  end.

(** What a [catch (error)] clause can receive: an [Error] object with its
    [message], or any other value, given by what [String(error)] returns. *)
Inductive Thrown :=
| ErrorObject (message : string)
| OtherValue (asString : string).

(** [error instanceof Error ? error.message : String(error)] *)
Definition describe (error : Thrown) : string :=
  match error with
  | ErrorObject message => message
  | OtherValue asString => asString
  end.

End JS.

(** ** The extension: firebase.ts *)

Module Firebase.
Import JS.

(** Modelled from the spec: types.ts, which declares IDayData and
    IQueuedUpdate, is not among the sources.  The fields are the ones
    firebase.ts reads and writes, with the types of the specification's
    data model. *)
Record IDayData := mkDayData {
  date : string;
  totalSeconds : Z;
  languages : gmap string Z;
}.

Module IQueuedUpdate.
Record t := mk {
  userId : string;
  date : string;
  data : IDayData;
  timestamp : Z;
}.
End IQueuedUpdate.

(** *** mergeDayData (lines 207-219) *)

Definition mergeDayData (existing incoming : IDayData) : IDayData :=
  let languages :=
    fold_left
      (λ (languages : gmap string Z) '(lang, seconds),
         <[lang := or0 (languages !! lang) + seconds]> languages)
      (entries (languages incoming))
      (languages existing) in
  {| date := date existing;
     totalSeconds := totalSeconds existing + totalSeconds incoming;
     languages := languages |}.

(** *** looksLikeNetworkError (lines 272-284) *)

Definition looksLikeNetworkError (error : Thrown) : bool :=
  let msg := toLowerCase (describe error) in
  includes msg "network" ||
  includes msg "enotfound" ||
  includes msg "econnrefused" ||
  includes msg "etimedout" ||
  includes msg "timeout" ||
  includes msg "socket hang up".

(** *** The manager and the world it talks to

    [db], [initialized] and [offlineQueue] are the fields of the class.
    [documents] is the remote collection users/{userId}/days/{date},
    keyed by the pair.  [remoteCalls] counts the [get] and [set] requests
    issued so far and [clockReads] the calls of [Date.now()]. *)

Inductive Firestore := FirestoreClient.

Record State := mkState {
  db : option Firestore;
  initialized : bool;
  offlineQueue : list IQueuedUpdate.t;
  documents : gmap (string * string) IDayData;
  remoteCalls : nat;
  clockReads : nat;
}.

(** The environment decides what the code cannot: [outcome n] is what
    the n-th remote request does ([None]: it completes, [Some e]: it
    throws [e] and has no effect on the collection), and [now n] is the
    n-th reading of the clock. *)
Record Env := mkEnv {
  outcome : nat → option Thrown;
  now : nat → Z;
}.

Inductive Completion (A : Type) :=
| Returned (a : A)
| Threw (error : Thrown).
Arguments Returned {A} a.
Arguments Threw {A} error.

Definition M (A : Type) : Type := Env → State → Completion A * State.

#[global] Instance M_ret : MRet M := λ A a _ s, (Returned a, s).

#[global] Instance M_bind : MBind M :=
  λ A B k m env s,
    match m env s with
    | (Returned a, s') => k a env s'
    | (Threw e, s') => (Threw e, s')
    end.

(** [try { body } catch (error) { handler }] *)
Definition try_catch {A} (body : M A) (handler : Thrown → M A) : M A :=
  λ env s,
    match body env s with
    | (Returned a, s') => (Returned a, s')
    | (Threw e, s') => handler e env s'
    end.

Definition this : M State := λ _ s, (Returned s, s).

Definition update (f : State → State) : M unit := λ _ s, (Returned tt, f s).

Definition set_offlineQueue (q : list IQueuedUpdate.t) (s : State) : State :=
  {| db := db s; initialized := initialized s; offlineQueue := q;
     documents := documents s; remoteCalls := remoteCalls s;
     clockReads := clockReads s |}.

Definition set_documents (d : gmap (string * string) IDayData) (s : State)
  : State :=
  {| db := db s; initialized := initialized s;
     offlineQueue := offlineQueue s; documents := d;
     remoteCalls := remoteCalls s; clockReads := clockReads s |}.

Definition count_remoteCall (s : State) : State :=
  {| db := db s; initialized := initialized s;
     offlineQueue := offlineQueue s; documents := documents s;
     remoteCalls := S (remoteCalls s); clockReads := clockReads s |}.

Definition count_clockRead (s : State) : State :=
  {| db := db s; initialized := initialized s;
     offlineQueue := offlineQueue s; documents := documents s;
     remoteCalls := remoteCalls s; clockReads := S (clockReads s) |}.

(** A request to the backend: counted, then it throws or takes effect. *)
Definition remote {A} (effect : State → A * State) : M A :=
  λ env s,
    match outcome env (remoteCalls s) with
    | Some e => (Threw e, count_remoteCall s)
    | None =>
        let '(a, s') := effect (count_remoteCall s) in (Returned a, s')
    end.

(** [db.collection("users").doc(userId).collection("days").doc(date)] *)
Definition docRef (userId date : string) : string * string := (userId, date).

(** [await docRef.get()]: [None] when [existing.exists] is false,
    otherwise [existing.data()]. *)
Definition docRef_get (ref : string * string) : M (option IDayData) :=
  remote (λ s, (documents s !! ref, s)).

(** [await docRef.set(value)]: a full replace of the document. *)
Definition docRef_set (ref : string * string) (value : IDayData) : M unit :=
  remote (λ s, (tt, set_documents (<[ref := value]> (documents s)) s)).

Definition Date_now : M Z :=
  λ env s, (Returned (now env (clockReads s)), count_clockRead s).

(** *** enqueue (lines 223-231) *)

Definition enqueue (userId : string) (data : IDayData) : M unit :=
  timestamp ← Date_now;
  update (λ s,
    set_offlineQueue
      (offlineQueue s ++
         [ {| IQueuedUpdate.userId := userId;
              IQueuedUpdate.date := date data;
              IQueuedUpdate.data := data;
              IQueuedUpdate.timestamp := timestamp |} ])
      s).

(** *** writeDayData (lines 124-164) *)

Definition writeDayData (userId : string) (data : IDayData) : M bool :=
  self ← this;
  if negb (initialized self) || negb (bool_decide (is_Some (db self))) then
    enqueue userId data;;
    mret false
  else
    try_catch
      (let ref := docRef userId (date data) in
       existing ← docRef_get ref;
       match existing with
       | Some stored =>
           let merged := mergeDayData stored data in
           docRef_set ref merged
       | None => docRef_set ref data
       end;;
       mret true)
      (λ error,
         (if looksLikeNetworkError error
          then enqueue userId data
          else mret tt);;
         mret false).

(** [for (const item of batch) { body }] *)
Fixpoint for_of {A} (batch : list A) (body : A → M unit) : M unit :=
  match batch with
  | [] => mret tt
  | item :: rest => body item ;; for_of rest body
  end.

(** *** drainOfflineQueue (lines 236-264)

    [batch] keeps the array the field pointed to; the field gets a fresh
    empty array, so what [enqueue] pushes during the loop is not seen by
    the iteration. *)

Definition drainOfflineQueue : M unit :=
  self ← this;
  if (length (offlineQueue self) =? 0)%nat then mret tt
  else
    let batch := offlineQueue self in
    update (set_offlineQueue []);;
    for_of batch
      (λ item,
         success ← writeDayData (IQueuedUpdate.userId item)
                                (IQueuedUpdate.data item);
         mret tt).

(** *** Vocabulary for the properties *)

(** The backend connection is established: the guard at the head of
    [writeDayData] lets the call through. *)
Definition ready (s : State) : Prop :=
  initialized s = true ∧ is_Some (db s).

(** The read or the write of a call started in [s] throws [e]. *)
Definition throws (env : Env) (s : State) (e : Thrown) : Prop :=
  outcome env (remoteCalls s) = Some e
  ∨ (outcome env (remoteCalls s) = None
     ∧ outcome env (S (remoteCalls s)) = Some e).

(** The state [enqueue userId data] leaves behind. *)
Definition enqueued (env : Env) (userId : string) (data : IDayData)
    (s : State) : State :=
  set_offlineQueue
    (offlineQueue s ++
       [ {| IQueuedUpdate.userId := userId;
            IQueuedUpdate.date := date data;
            IQueuedUpdate.data := data;
            IQueuedUpdate.timestamp := now env (clockReads s) |} ])
    (count_clockRead s).

(** Whose delta a queued update carries. *)
Definition payload (item : IQueuedUpdate.t) : string * IDayData :=
  (IQueuedUpdate.userId item, IQueuedUpdate.data item).

End Firebase.

(** ** The HTTP API: the Tracking model (mergeTrackingData) *)

Module Tracking.
Import JS.

(** The document of the schema.  [createdAt] and [updatedAt], which
    Mongoose maintains by itself, are left out, and so are the
    restrictions Mongoose puts on the keys of a [Map] path. *)
Record ITracking := mkTracking {
  userId : string;
  date : string;
  totalSeconds : Z;
  languages : gmap string Z;
}.

(** What [save()] and [create()] settle to: the stored document, or a
    ValidationError naming the paths the schema rejects. *)
Inductive Settled (A : Type) :=
| Resolved (a : A)
| ValidationError (paths : list string).
Arguments Resolved {A} a.
Arguments ValidationError {A} paths.

Definition isDigit (c : ascii) : bool :=
  let n := nat_of_ascii c in ((48 <=? n) && (n <=? 57))%nat.

(** [/^\d{4}-\d{2}-\d{2}$/.test(s)] *)
Definition matchesDate (s : string) : bool :=
  match list_ascii_of_string s with
  | [y1; y2; y3; y4; h1; m1; m2; h2; d1; d2] =>
      isDigit y1 && isDigit y2 && isDigit y3 && isDigit y4 &&
      bool_decide (h1 = "-"%char) &&
      isDigit m1 && isDigit m2 &&
      bool_decide (h2 = "-"%char) &&
      isDigit d1 && isDigit d2
  | _ => false
  end.

(** The validators of TrackingSchema, path by path.  The [trim] setter
    of [userId] is not modelled: user ids are taken as already trimmed. *)
Definition invalid_userId (d : ITracking) : list string :=
  if bool_decide (userId d = ""%string) then ["userId"%string] else [].

Definition invalid_date (d : ITracking) : list string :=
  if bool_decide (date d = ""%string) || negb (matchesDate (date d))
  then ["date"%string] else [].

Definition invalid_totalSeconds (d : ITracking) : list string :=
  if totalSeconds d <? 0 then ["totalSeconds"%string] else [].

Definition validated (paths : list string) (d : ITracking)
  : Settled ITracking :=
  match paths with
  | [] => Resolved d
  | _ => ValidationError paths
  end.

(** The body of the [if (existing)] branch up to [save()]
    (lines 266-276): the document as it stands in memory. *)
Definition mergeExisting (existing : ITracking) (totalSeconds' : Z)
    (languages' : gmap string Z) : ITracking :=
  let updatedLanguages :=
    fold_left
      (λ (updatedLanguages : gmap string Z) '(lang, seconds),
         let current := or0 (updatedLanguages !! lang) in
         <[lang := Z.max 0 (current + seconds)]> updatedLanguages)
      (entries languages')
      (languages existing) in
  {| userId := userId existing;
     date := date existing;
     totalSeconds := totalSeconds existing + totalSeconds';
     languages := updatedLanguages |}.

(** [mergeTrackingData] (lines 256-291) over the collection, which the
    unique index keys by (userId, date).  [save()] validates the paths
    the merge modified, [create()] every path. *)
Definition mergeTrackingData (userId' date' : string) (totalSeconds' : Z)
    (languages' : gmap string Z)
    (collection : gmap (string * string) ITracking)
  : Settled ITracking * gmap (string * string) ITracking :=
  match collection !! (userId', date') with
  | Some existing =>
      let existing' := mergeExisting existing totalSeconds' languages' in
      match validated (invalid_totalSeconds existing') existing' with
      | Resolved saved =>
          (Resolved saved, <[(userId', date') := saved]> collection)
      | ValidationError paths => (ValidationError paths, collection)
      end
  | None =>
      let languagesMap := list_to_map (entries languages') in
      let doc := {| userId := userId'; date := date';
                    totalSeconds := totalSeconds';
                    languages := languagesMap |} in
      match validated
              (invalid_userId doc ++ invalid_date doc ++
               invalid_totalSeconds doc) doc with
      | Resolved created =>
          (Resolved created, <[(userId', date') := created]> collection)
      | ValidationError paths => (ValidationError paths, collection)
      end
  end.

End Tracking.

(** ** The vocabulary of the specification *)

Module Spec.
Import Firebase.

(** The three outcomes the specification gives to a submit.  The code
    has no such type: [writeDayData] resolves to a boolean. *)
Inductive Outcome := Success | Queued | Failed.

(** How an outcome is read off a call: [result] is the boolean the call
    resolved to ("true on success, false on failure" in the source), and
    a call that resolved to false has queued its delta when the offline
    queue is longer after it than before. *)
Definition outcomeOf (result : bool) (before after : State) : Outcome :=
  if result then Success
  else if (length (offlineQueue before) <? length (offlineQueue after))%nat
       then Queued
       else Failed.

(** [sub] occurs in [s]: what "the description contains a substring"
    means. *)
Definition contains (s sub : string) : Prop :=
  ∃ before after, s = before +:+ sub +:+ after.


End Spec.

(** ** Fixtures: the scenarios of the specification *)

Module Scenario.
Import JS Firebase.

Definition stored : IDayData :=
  {| date := "2024-01-01"; totalSeconds := 120;
     languages := {[ "go"%string := 120 ]} |}.

Definition delta : IDayData :=
  {| date := "2024-01-01"; totalSeconds := 30;
     languages := <[ "rust"%string := 20 ]> {[ "go"%string := 10 ]} |}.

Definition first_delta : IDayData :=
  {| date := "2024-01-01"; totalSeconds := 120;
     languages := {[ "go"%string := 120 ]} |}.

Definition other_delta : IDayData :=
  {| date := "2024-01-02"; totalSeconds := 45;
     languages := {[ "typescript"%string := 45 ]} |}.

Definition clock (n : nat) : Z := 1704067200000 + 1000 * Z.of_nat n.

(** Every request completes. *)
Definition online : Env := {| outcome := λ _, None; now := clock |}.

(** The request numbered [n] throws [e]; the others complete. *)
Definition failing_at (n : nat) (e : Thrown) : Env :=
  {| outcome := λ k, if (k =? n)%nat then Some e else None; now := clock |}.

Definition timed_out : Thrown :=
  ErrorObject "connect ETIMEDOUT 142.250.74.10:443".

Definition denied : Thrown :=
  ErrorObject "7 PERMISSION_DENIED: Missing or insufficient permissions.".

(** Socket wording that is not the literal "socket hang up". *)
Definition socket_closed : Thrown :=
  ErrorObject "The socket was closed before the write completed".

Definition connected (docs : gmap (string * string) IDayData)
    (queue : list IQueuedUpdate.t) : State :=
  {| db := Some FirestoreClient; initialized := true;
     offlineQueue := queue; documents := docs;
     remoteCalls := 0; clockReads := 0 |}.

Definition not_ready : State :=
  {| db := None; initialized := false; offlineQueue := [];
     documents := ∅; remoteCalls := 0; clockReads := 0 |}.

(** The API's document for the stored record of the scenario. *)
Definition tracked : Tracking.ITracking :=
  {| Tracking.userId := "u1"; Tracking.date := "2024-01-01";
     Tracking.totalSeconds := 120;
     Tracking.languages := {[ "go"%string := 120 ]} |}.

(** A languages object with negative counts, which the route would have
    rejected before the merge. *)
Definition negative_languages : gmap string Z :=
  <[ "rust"%string := -3 ]> {[ "go"%string := -200 ]}.


Definition queued (userId : string) (d : IDayData) (t : Z)
  : IQueuedUpdate.t :=
  {| IQueuedUpdate.userId := userId; IQueuedUpdate.date := date d;
     IQueuedUpdate.data := d; IQueuedUpdate.timestamp := t |}.

(** The queue [A; B] of the drain scenario. *)
Definition queued_A : IQueuedUpdate.t := queued "u1" first_delta 5.
Definition queued_B : IQueuedUpdate.t := queued "u1" other_delta 6.

End Scenario.

(** ** The extension: set-up and teardown of the manager *)

Module Lifecycle.
Import JS Firebase.

(** The three fields [configure] keeps of a service account. *)
Record IFirebaseConfig := mkConfig {
  projectId : string;
  clientEmail : string;
  privateKey : string;
}.

Definition set_db (d : option Firestore) (s : State) : State :=
  {| db := d; initialized := initialized s;
     offlineQueue := offlineQueue s; documents := documents s;
     remoteCalls := remoteCalls s; clockReads := clockReads s |}.

Definition set_initialized (b : bool) (s : State) : State :=
  {| db := db s; initialized := b;
     offlineQueue := offlineQueue s; documents := documents s;
     remoteCalls := remoteCalls s; clockReads := clockReads s |}.

(** A call into the Admin SDK: it returns, or it throws what the
    surroundings decided. *)
Definition sdk (result : option Thrown) : M unit :=
  λ _ s, match result with
         | Some e => (Threw e, s)
         | None => (Returned tt, s)
         end.

(** *** initialize (lines 24-60)

    [config] is what [getStoredConfig()] resolved to, [None] for null.
    [setup] is the fate of the statements from [getApps()] to
    [getFirestore()]: they touch no field of the manager, and the first
    assignment comes after the last of them. *)
Definition initialize (config : option IFirebaseConfig)
    (setup : option Thrown) : M bool :=
  self ← this;
  if initialized self then mret true
  else
    match config with
    | None => mret false
    | Some config =>
        try_catch
          (sdk setup;;
           update (set_db (Some FirestoreClient));;
           update (set_initialized true);;
           drainOfflineQueue;;
           mret true)
          (λ error, mret false)
    end.

(** *** dispose (lines 172-183)

    [apps] is [admin.apps.length] and [deleted] the fate of
    [admin.app().delete()]. *)
Definition dispose (apps : nat) (deleted : option Thrown) : M unit :=
  self ← this;
  (if (0 <? length (offlineQueue self))%nat
   then drainOfflineQueue
   else mret tt);;
  self ← this;
  if initialized self && (0 <? apps)%nat then
    sdk deleted;;
    update (set_initialized false)
  else mret tt.

End Lifecycle.

(** ** The Tracking model: formatDuration *)

Module TrackingMethods.
Import JS Tracking.

(** [`${n}`] for an integer count. *)
Definition numberToString (n : Z) : string := pretty n.

(** [formatDuration] (lines 294-305).  [Math.floor(a / b)] is the floored
    quotient and [%] the remainder with the sign of the dividend. *)
Definition formatDuration (this : ITracking) : string :=
  let hours := totalSeconds this / 3600 in
  let minutes := Z.rem (totalSeconds this) 3600 / 60 in
  let seconds := Z.rem (totalSeconds this) 60 in
  let parts : list string := [] in
  let parts :=
    if 0 <? hours then parts ++ [numberToString hours +:+ "h"] else parts in
  let parts :=
    if 0 <? minutes then parts ++ [numberToString minutes +:+ "m"]
    else parts in
  let parts :=
    if (0 <? seconds) || (length parts =? 0)%nat
    then parts ++ [numberToString seconds +:+ "s"]
    else parts in
  String.concat " " parts.

(** *** Vocabulary for the properties of formatDuration *)

(** The text consists of decimal digits. *)
Fixpoint digits (s : string) : bool :=
  match s with
  | EmptyString => true
  | String c rest => isDigit c && digits rest
  end.

(** The parts of a duration as numbers with their unit letters, in the
    order and under the conditions of the three [push]es. *)
Definition partsOf (total : Z) : list (Z * ascii) :=
  let hours := total / 3600 in
  let minutes := Z.rem total 3600 / 60 in
  let seconds := Z.rem total 60 in
  (if 0 <? hours then [(hours, "h"%char)] else []) ++
  (if 0 <? minutes then [(minutes, "m"%char)] else []) ++
  (if (0 <? seconds) || negb (0 <? hours) && negb (0 <? minutes)
   then [(seconds, "s"%char)] else []).

Definition render (parts : list (Z * ascii)) : string :=
  String.concat " "
    (map (λ '(n, unit), numberToString n +:+ String unit "") parts).

(** The seconds a list of parts stands for. *)
Definition secondsOf (parts : list (Z * ascii)) : Z :=
  foldr
    (λ '(n, unit) total,
       n * (if bool_decide (unit = "h"%char) then 3600
            else if bool_decide (unit = "m"%char) then 60 else 1)
       + total)
    0 parts.

End TrackingMethods.

(** ** The HTTP API: the checks of POST /api/track *)

Module Route.
Import JS.

(** A parsed JSON value.  An object lists its members in the order
    [Object.entries] gives them, each key once. *)
#[warnings="-register-all"]
Inductive JSON :=
| JNull
| JBool (b : bool)
| JNumber (n : Z)
| JString (s : string)
| JArray (items : list JSON)
| JObject (members : list (string * JSON)).

(** What the handler reads of a request: the Authorization header
    ([None] when [headers.get] gives null) and the body ([None] when
    [request.json()] throws). *)
Record Request := mkRequest {
  authorization : option string;
  body : option JSON;
}.

(** An error response: [NextResponse.json({ error }, { status })]. *)
Record Response := mkResponse {
  status : nat;
  error : string;
}.

(** What the handler goes on with once every check has passed. *)
Record Accepted := mkAccepted {
  token : string;
  userId : string;
  date : JSON;
  totalSeconds : Z;
  languages : JSON;
}.

(** [s.split(" ")] *)
Fixpoint split (sep : ascii) (s : string) : list string :=
  match s with
  | EmptyString => [EmptyString]
  | String c rest =>
      if bool_decide (c = sep) then EmptyString :: split sep rest
      else match split sep rest with
           | head :: tail => String c head :: tail
           | [] => [String c EmptyString]
           end
  end.

(** [obj[key]] for a member of a destructured body: only an object has
    members of its own under the names the handler asks for. *)
Fixpoint member (members : list (string * JSON)) (key : string)
  : option JSON :=
  match members with
  | [] => None
  | (k, v) :: rest => if bool_decide (k = key) then Some v else member rest key
  end.

Definition property (value : JSON) (key : string) : option JSON :=
  match value with
  | JObject members => member members key
  | _ => None
  end.

(** [!!v], with [None] for undefined. *)
Definition truthy (v : option JSON) : bool :=
  match v with
  | None | Some JNull => false
  | Some (JBool b) => b
  | Some (JNumber n) => negb (n =? 0)
  | Some (JString s) => negb (bool_decide (s = EmptyString))
  | Some (JArray _) | Some (JObject _) => true
  end.

(** [String(v)], as [RegExp.prototype.test] applies it to its argument;
    [None] is the TypeError of an object whose own member "toString"
    hides the method of the prototype.  In an array, null gives the
    empty text. *)
Fixpoint toStringJS (v : JSON) : option string :=
  match v with
  | JNull => Some "null"%string
  | JBool b => Some (if b then "true" else "false")%string
  | JNumber n => Some (pretty n)
  | JString s => Some s
  | JArray items =>
      String.concat "," <$>
        mapM (λ item, match item with
                      | JNull => Some EmptyString
                      | _ => toStringJS item
                      end) items
  | JObject members =>
      if bool_decide ("toString"%string ∈ members.*1) then None
      else Some "[object Object]"%string
  end.

(** [Object.entries(v)] for a value of type "object". *)
Definition entriesOf (v : JSON) : list (string * JSON) :=
  match v with
  | JObject members => members
  | JArray items => imap (λ i item, (pretty i, item)) items
  | _ => []
  end.

(** [typeof seconds !== "number" || seconds < 0] *)
Definition invalidSeconds (v : JSON) : bool :=
  match v with
  | JNumber n => n <? 0
  | _ => true
  end.

(** The loop over the languages: the first language it rejects. *)
Fixpoint firstInvalid (entries : list (string * JSON)) : option string :=
  match entries with
  | [] => None
  | (lang, seconds) :: rest =>
      if invalidSeconds seconds then Some lang else firstInvalid rest
  end.

(** What the outer [catch] answers to an error that is neither a
    Mongoose ValidationError nor a duplicate key: the TypeErrors of the
    checks end here. *)
Definition internalError : Response :=
  {| status := 500; error := "Internal server error" |}.

(** The handler from its first line to the last check (lines 21-105):
    [inl] is the response of an early return, [inr] what reaches
    [connectToDatabase()]. *)
Definition POST_checks (request : Request) : Response + Accepted :=
  match authorization request with
  | None =>
      inl {| status := 401;
             error := "Missing or invalid Authorization header" |}
  | Some authHeader =>
      if bool_decide (authHeader = EmptyString)
         || negb (String.prefix "Bearer " authHeader)
      then inl {| status := 401;
                  error := "Missing or invalid Authorization header" |}
      else
        let token := default EmptyString (split " " authHeader !! 1%nat) in
        if bool_decide (token = EmptyString)
           || (String.length token <? 16)%nat
        then inl {| status := 401; error := "Invalid token format" |}
        else
          match body request with
          | None =>
              inl {| status := 400;
                     error := "Invalid JSON in request body" |}
          | Some JNull => inl internalError
          | Some body =>
              let userId := property body "userId" in
              let date := property body "date" in
              let totalSeconds := property body "totalSeconds" in
              let languages := property body "languages" in
              match userId with
              | Some (JString userId) =>
                  if bool_decide (userId = EmptyString) then
                    inl {| status := 400;
                           error :=
                             "userId is required and must be a string" |}
                  else if negb (truthy date) then
                    inl {| status := 400;
                           error :=
                             "date is required and must be in YYYY-MM-DD format" |}
                  else
                    match date ≫= toStringJS with
                    | None => inl internalError
                    | Some text =>
                        if negb (Tracking.matchesDate text) then
                          inl {| status := 400;
                                 error :=
                                   "date is required and must be in YYYY-MM-DD format" |}
                        else
                          match totalSeconds with
                          | Some (JNumber total) =>
                              if total <? 0 then
                                inl {| status := 400;
                                       error :=
                                         "totalSeconds must be a non-negative number" |}
                              else
                                match languages with
                                | Some (JArray _ as langs)
                                | Some (JObject _ as langs) =>
                                    match firstInvalid (entriesOf langs) with
                                    | Some lang =>
                                        inl {| status := 400;
                                               error :=
                                                 "Invalid seconds value for language: "
                                                 +:+ lang |}
                                    | None =>
                                        inr {| token := token;
                                               userId := userId;
                                               date := default JNull date;
                                               totalSeconds := total;
                                               languages := langs |}
                                    end
                                | _ =>
                                    inl {| status := 400;
                                           error :=
                                             "languages is required and must be an object" |}
                                end
                          | _ =>
                              inl {| status := 400;
                                     error :=
                                       "totalSeconds must be a non-negative number" |}
                          end
                    end
              | _ =>
                  inl {| status := 400;
                         error := "userId is required and must be a string" |}
              end
          end
  end.

(** *** Vocabulary for the properties of the checks *)

(** The token of a request whose Authorization header passes the two
    checks on it: the header starts with "Bearer " and the text between
    its first and its second space has at least 16 characters. *)
Definition bearerToken (request : Request) : option string :=
  header ← authorization request;
  if String.prefix "Bearer " header then
    token ← split " " header !! 1%nat;
    if (String.length token <? 16)%nat then None else Some token
  else None.

(** The text has no space in it. *)
Fixpoint spaceless (s : string) : bool :=
  match s with
  | EmptyString => true
  | String c rest => negb (bool_decide (c = " "%char)) && spaceless rest
  end.

(** The numbers of validated language entries. *)
Definition secondsOfEntry (v : JSON) : Z :=
  match v with
  | JNumber n => n
  | _ => 0
  end.

(** The languages of an accepted request as the mapping
    [mergeTrackingData] folds over. *)
Definition languagesMap (languages : JSON) : gmap string Z :=
  list_to_map (prod_map id secondsOfEntry <$> entriesOf languages).

End Route.

(** ** The HTTP API: the cached database connection (lib/mongoose.ts) *)

Module Mongoose.
Import JS.

(** The connected [mongoose] instance. *)
Inductive Connection := Connected.

(** The module-level cache.  A promise is given by what it settles to:
    the calls are sequential, so none is met pending. *)
Record MongooseCache := mkCache {
  conn : option Connection;
  promise : option (Thrown + Connection);
}.

(** The cache together with the number of [mongoose.connect] calls made
    so far. *)
Record World := mkWorld {
  cached : MongooseCache;
  connects : nat;
}.

(** [connectToDatabase] (lines 31-56).  [dial] is what
    [mongoose.connect(MONGODB_URI, opts)] settles to if it is called. *)
Definition connectToDatabase (dial : Thrown + Connection) (w : World)
  : (Thrown + Connection) * World :=
  match conn (cached w) with
  | Some c => (inr c, w)
  | None =>
      let '(settled, w1) :=
        match promise (cached w) with
        | Some p => (p, w)
        | None =>
            (dial,
             {| cached := {| conn := None; promise := Some dial |};
                connects := S (connects w) |})
        end in
      match settled with
      | inr c =>
          (inr c,
           {| cached := {| conn := Some c; promise := promise (cached w1) |};
              connects := connects w1 |})
      | inl error =>
          (inl error,
           {| cached := {| conn := conn (cached w1); promise := None |};
              connects := connects w1 |})
      end
  end.

(** [disconnectFromDatabase] (lines 61-68).  [hangup] is what
    [mongoose.disconnect()] does: complete, or throw. *)
Definition disconnectFromDatabase (hangup : option Thrown) (w : World)
  : option Thrown * World :=
  match conn (cached w) with
  | Some _ =>
      match hangup with
      | Some error => (Some error, w)
      | None =>
          (None,
           {| cached := {| conn := None; promise := None |};
              connects := connects w |})
      end
  | None => (None, w)
  end.

(** A run of calls, each with the fate its [mongoose.connect] would
    have: the results in order, and the world after the last. *)
Fixpoint connectEach (dials : list (Thrown + Connection)) (w : World)
  : list (Thrown + Connection) * World :=
  match dials with
  | [] => ([], w)
  | dial :: rest =>
      let '(r, w1) := connectToDatabase dial w in
      let '(rs, w2) := connectEach rest w1 in
      (r :: rs, w2)
  end.

(** The cache of a freshly loaded module. *)
Definition fresh : World :=
  {| cached := {| conn := None; promise := None |}; connects := 0 |}.

End Mongoose.

(** ** Vocabulary for the properties of the Tracking model *)

Module Stored.

(** Printable ASCII without blanks: a text the [trim] setter of the
    schema leaves as it is. *)
Fixpoint plainText (s : string) : bool :=
  match s with
  | EmptyString => true
  | String c rest =>
      let n := nat_of_ascii c in
      ((33 <=? n) && (n <=? 126))%nat && plainText rest
  end.

(** A key Mongoose takes for a [Map] path: it has no "." in it and does
    not start with "$". *)
Definition mapKey (s : string) : bool :=
  negb (String.prefix "$" s) && negb (JS.includes s ".").

(** The inputs the model of [mergeTrackingData] is meant for. *)
Definition modelled (userId : string) (languages : gmap string Z) : Prop :=
  plainText userId = true
  ∧ ∀ lang, is_Some (languages !! lang) → mapKey lang = true.

End Stored.

(** ** Vocabulary for the properties of the extension *)

Module Effects.
Import JS Firebase.

(** The collection after a delivered [writeDayData userId data]: the
    document of that day is the merge with what was stored, or the delta
    itself when nothing was. *)
Definition delivered (userId : string) (data : IDayData)
    (docs : gmap (string * string) IDayData)
  : gmap (string * string) IDayData :=
  <[(userId, date data) :=
      match docs !! (userId, date data) with
      | Some stored => mergeDayData stored data
      | None => data
      end]> docs.

(** The collection after the queued updates of [batch] have been
    delivered one after the other. *)
Definition deliveredAll (batch : list IQueuedUpdate.t)
    (docs : gmap (string * string) IDayData)
  : gmap (string * string) IDayData :=
  fold_left
    (λ docs item,
       delivered (IQueuedUpdate.userId item) (IQueuedUpdate.data item) docs)
    batch docs.


End Effects.

(** ** Fixtures for the further properties *)

Module Fixtures.
Import JS Firebase.

Definition third_delta : IDayData :=
  {| date := "2024-01-01"; totalSeconds := 15;
     languages := {[ "rust"%string := 15 ]} |}.

(** Three queued updates, two of them for the same day. *)
Definition three_queued : list IQueuedUpdate.t :=
  [ Scenario.queued_A; Scenario.queued_B;
    Scenario.queued "u1" third_delta 7 ].

(** A manager that has a queue but no connection yet. *)
Definition waiting (queue : list IQueuedUpdate.t) : State :=
  {| db := None; initialized := false; offlineQueue := queue;
     documents := ∅; remoteCalls := 0; clockReads := 0 |}.

(** A network error wrapped in a longer message, in capitals. *)
Definition wrapped_timeout : Thrown :=
  OtherValue "SYNC FAILED: CONNECT ETIMEDOUT 142.250.74.10:443 (RETRYING)".

(** Documents of the API that differ in their totalSeconds only. *)
Definition lasting (totalSeconds : Z) : Tracking.ITracking :=
  {| Tracking.userId := "u1"; Tracking.date := "2024-01-01";
     Tracking.totalSeconds := totalSeconds;
     Tracking.languages := ∅ |}.

(** A request as the extension would send it. *)
Definition bearer : string := "Bearer 0123456789abcdef0123".

Definition sync_body : Route.JSON :=
  Route.JObject
    [ ("userId"%string, Route.JString "u1");
      ("date"%string, Route.JString "2024-01-01");
      ("totalSeconds"%string, Route.JNumber 30);
      ("languages"%string,
       Route.JObject [ ("go"%string, Route.JNumber 10);
                       ("rust"%string, Route.JNumber 20) ]) ].

Definition sync_request : Route.Request :=
  {| Route.authorization := Some bearer; Route.body := Some sync_body |}.

(** The same request with the JSON literal null as its body. *)
Definition null_request : Route.Request :=
  {| Route.authorization := Some bearer; Route.body := Some Route.JNull |}.

End Fixtures.

(** * Properties *)

Import JS Firebase.

(** ** The loop over the entries of the incoming languages *)

Section EntriesFold.
Variable g : option Z → Z → Z.

Let step (m : gmap string Z) (e : string * Z) : gmap string Z :=
  let '(lang, seconds) := e in <[lang := g (m !! lang) seconds]> m.

Lemma fold_step_other (l : list (string * Z)) (m : gmap string Z) k :
  k ∉ l.*1 → fold_left step l m !! k = m !! k.
Proof.
  revert m. induction l as [|[lang seconds] l IH]; intros m Hk; [done|].
  cbn in *. apply not_elem_of_cons in Hk as [Hne Hk].
  rewrite IH by done. by apply lookup_insert_ne.
Qed.

Lemma fold_step_entry (l : list (string * Z)) (m : gmap string Z) k s :
  NoDup l.*1 → (k, s) ∈ l →
  fold_left step l m !! k = Some (g (m !! k) s).
Proof.
  revert m. induction l as [|[lang seconds] l IH]; intros m Hnd Hin.
  - by apply elem_of_nil in Hin.
  - cbn in *. apply NoDup_cons in Hnd as [Hfresh Hnd].
    apply elem_of_cons in Hin as [Heq|Hin].
    + injection Heq as <- <-.
      rewrite fold_step_other by done. apply lookup_insert_eq.
    + assert (k ≠ lang) as Hne.
      { intros ->. apply Hfresh. apply list_elem_of_fmap.
        by exists (lang, s). }
      rewrite IH by done. by rewrite lookup_insert_ne.
Qed.

(** The loop does not depend on the order in which the entries come:
    each key of the incoming object is visited once. *)
Lemma fold_entries_lookup (incoming existing : gmap string Z) k :
  fold_left step (entries incoming) existing !! k =
  match incoming !! k with
  | Some s => Some (g (existing !! k) s)
  | None => existing !! k
  end.
Proof.
  unfold entries. destruct (incoming !! k) as [s|] eqn:Hk.
  - apply fold_step_entry; [apply NoDup_fst_map_to_list|].
    by apply elem_of_map_to_list.
  - apply fold_step_other. intros Hin.
    apply list_elem_of_fmap in Hin as [[k' s] [-> Hin]].
    apply elem_of_map_to_list in Hin. cbn in *. congruence.
Qed.
End EntriesFold.

Lemma or0_default (v : option Z) : or0 v = default 0 v.
Proof.
  destruct v as [n|]; [|done]. cbn. destruct (Z.eqb_spec n 0); congruence.
Qed.



(** ** The merge engine *)



(** ** One call of writeDayData, case by case *)

Ltac run_M :=
  unfold writeDayData, enqueue, docRef_get, docRef_set, remote, try_catch,
    Date_now, update, this, docRef, mbind, M_bind, mret, M_ret; cbn.

Lemma writeDayData_not_ready env userId data s :
  ¬ ready s →
  writeDayData userId data env s = (Returned false, enqueued env userId data s).
Proof.
  intros Hnot. run_M.
  destruct (initialized s) eqn:Hi; cbn; [|done].
  rewrite bool_decide_eq_false_2; [done|].
  intros Hdb. apply Hnot. by split.
Qed.

Lemma writeDayData_read_throws env userId data s e :
  ready s → outcome env (remoteCalls s) = Some e →
  writeDayData userId data env s =
  (Returned false,
   if looksLikeNetworkError e
   then enqueued env userId data (count_remoteCall s)
   else count_remoteCall s).
Proof.
  intros [Hi Hdb] He. run_M. rewrite Hi, bool_decide_eq_true_2 by done. cbn.
  rewrite He. by destruct (looksLikeNetworkError e).
Qed.

Lemma writeDayData_write_throws env userId data s e :
  ready s → outcome env (remoteCalls s) = None →
  outcome env (S (remoteCalls s)) = Some e →
  writeDayData userId data env s =
  (Returned false,
   if looksLikeNetworkError e
   then enqueued env userId data (count_remoteCall (count_remoteCall s))
   else count_remoteCall (count_remoteCall s)).
Proof.
  intros [Hi Hdb] Hread He. run_M.
  rewrite Hi, bool_decide_eq_true_2 by done. cbn. rewrite Hread.
  destruct (documents s !! (userId, date data)); cbn; rewrite He;
    by destruct (looksLikeNetworkError e).
Qed.

Lemma writeDayData_completes env userId data s :
  ready s → outcome env (remoteCalls s) = None →
  outcome env (S (remoteCalls s)) = None →
  writeDayData userId data env s =
  (Returned true,
   set_documents
     (<[(userId, date data) :=
          match documents s !! (userId, date data) with
          | Some stored => mergeDayData stored data
          | None => data
          end]> (documents s))
     (count_remoteCall (count_remoteCall s))).
Proof.
  intros [Hi Hdb] Hread Hwrite. run_M.
  rewrite Hi, bool_decide_eq_true_2 by done. cbn. rewrite Hread.
  destruct (documents s !! (userId, date data)); cbn; by rewrite Hwrite.
Qed.

(** [writeDayData] absorbs every exception, and these four cases are all
    there is: a call that resolves to [true] went through both requests. *)
Lemma writeDayData_true_inv env userId data s r s' :
  writeDayData userId data env s = (r, s') → r = Returned true →
  ready s ∧ outcome env (remoteCalls s) = None
  ∧ outcome env (S (remoteCalls s)) = None.
Proof.
  intros Hrun ->.
  destruct (decide (ready s)) as [Hr|Hn].
  - destruct (outcome env (remoteCalls s)) as [e|] eqn:Hread.
    { rewrite (writeDayData_read_throws _ _ _ _ e) in Hrun by done.
      congruence. }
    destruct (outcome env (S (remoteCalls s))) as [e|] eqn:Hwrite.
    { rewrite (writeDayData_write_throws _ _ _ _ e) in Hrun by done.
      congruence. }
    done.
  - rewrite writeDayData_not_ready in Hrun by done. congruence.
Qed.

(** ** Failure classification *)

Lemma append_nil (s : string) : ""%string +:+ s = s.
Proof. reflexivity. Qed.

Lemma append_cons (c : ascii) (a b : string) :
  String c a +:+ b = String c (a +:+ b).
Proof. reflexivity. Qed.

Lemma prefix_app (p rest : string) : String.prefix p (p +:+ rest) = true.
Proof.
  induction p as [|c p IH].
  - rewrite append_nil. by destruct rest.
  - rewrite append_cons. simpl.
    destruct (Ascii.ascii_dec c c); [done|congruence].
Qed.

Lemma prefix_inv (p s : string) :
  String.prefix p s = true → ∃ rest, s = p +:+ rest.
Proof.
  revert s. induction p as [|c p IH]; intros s Hp.
  - by exists s.
  - destruct s as [|c' s]; simpl in Hp; [done|].
    destruct (Ascii.ascii_dec c c') as [->|]; [|done].
    destruct (IH _ Hp) as [rest ->]. by exists rest.
Qed.

Lemma includes_nil (sub : string) :
  includes "" sub = String.prefix sub "" || false.
Proof. reflexivity. Qed.

Lemma includes_cons (c : ascii) (s sub : string) :
  includes (String c s) sub =
  String.prefix sub (String c s) || includes s sub.
Proof. reflexivity. Qed.

(** [includes] is the substring test. *)
Lemma includes_contains (s sub : string) :
  includes s sub = true ↔ Spec.contains s sub.
Proof.
  split.
  - induction s as [|c s IH]; intros H.
    + rewrite includes_nil, orb_false_r in H.
      apply prefix_inv in H as [rest ->]. by exists ""%string, rest.
    + rewrite includes_cons in H. apply orb_true_iff in H as [H|H].
      * apply prefix_inv in H as [rest Hs]. by exists ""%string, rest.
      * destruct (IH H) as (before & after & ->).
        by exists (String c before), after.
  - intros (before & after & ->).
    induction before as [|c before IH].
    + rewrite append_nil.
      assert (String.prefix sub (sub +:+ after) = true) as Hp
        by apply prefix_app.
      destruct (sub +:+ after);
        [rewrite includes_nil|rewrite includes_cons]; by rewrite Hp.
    + rewrite append_cons, includes_cons, IH. apply orb_true_r.
Qed.

Lemma toLowerCase_app (a b : string) :
  toLowerCase (a +:+ b) = toLowerCase a +:+ toLowerCase b.
Proof.
  induction a as [|c a IH]; [done|].
  rewrite append_cons. simpl. by rewrite IH.
Qed.

Lemma toLowerCase_contains (s sub : string) :
  Spec.contains s sub → Spec.contains (toLowerCase s) (toLowerCase sub).
Proof.
  intros (before & after & ->). rewrite !toLowerCase_app. by eexists _, _.
Qed.

(** The classifier answers yes exactly on the six literals of the source. *)
Lemma looksLikeNetworkError_iff (e : Thrown) :
  looksLikeNetworkError e = true ↔
  ∃ w : string,
    w ∈ ["network"; "enotfound"; "econnrefused"; "etimedout"; "timeout";
         "socket hang up"]%string
    ∧ Spec.contains (toLowerCase (describe e)) w.
Proof.
  unfold looksLikeNetworkError. cbv zeta.
  rewrite !orb_true_iff, !includes_contains. split.
  - intros H. repeat destruct H as [H|H];
      eexists; (split; [|exact H]); set_solver.
  - intros (w & Hw & H).
    repeat (apply elem_of_cons in Hw as [->|Hw]; [tauto|]).
    by apply elem_of_nil in Hw.
Qed.

Lemma writeDayData_throws env userId data s e :
  ready s → throws env s e →
  ∃ s0, offlineQueue s0 = offlineQueue s ∧ documents s0 = documents s
    ∧ clockReads s0 = clockReads s
    ∧ writeDayData userId data env s =
      (Returned false,
       if looksLikeNetworkError e then enqueued env userId data s0 else s0).
Proof.
  intros Hr [He|[Hread He]].
  - exists (count_remoteCall s). repeat split.
    by apply writeDayData_read_throws.
  - exists (count_remoteCall (count_remoteCall s)). repeat split.
    by apply writeDayData_write_throws.
Qed.

Lemma outcomeOf_queued (s s' : State) :
  length (offlineQueue s') = S (length (offlineQueue s)) →
  Spec.outcomeOf false s s' = Spec.Queued.
Proof.
  intros Hlen. unfold Spec.outcomeOf. rewrite Hlen.
  by rewrite (proj2 (Nat.ltb_lt _ _)) by lia.
Qed.

Lemma outcomeOf_failed (s s' : State) :
  offlineQueue s' = offlineQueue s →
  Spec.outcomeOf false s s' = Spec.Failed.
Proof.
  intros Hq. unfold Spec.outcomeOf. rewrite Hq.
  by rewrite Nat.ltb_irrefl.
Qed.

(** ** The sync coordinator *)

(** C3.  When no record exists for (userId, D.date), a call that succeeds
    has stored [D] itself under that key, and left every other document
    and the offline queue as they were.  A call succeeds exactly when the
    connection is established and both the read and the write complete. *)
Theorem writeDayData_first_sync_stores_delta env userId (D : IDayData) s :
  documents s !! (userId, date D) = None →
  (∀ s', writeDayData userId D env s = (Returned true, s') →
     documents s' !! (userId, date D) = Some D
     ∧ documents s' = <[(userId, date D) := D]> (documents s)
     ∧ offlineQueue s' = offlineQueue s)
  ∧ ((∃ s', writeDayData userId D env s = (Returned true, s')) ↔
     ready s ∧ outcome env (remoteCalls s) = None
     ∧ outcome env (S (remoteCalls s)) = None).
Proof.
  intros Habsent. split.
  - intros s' Hrun.
    destruct (writeDayData_true_inv _ _ _ _ _ _ Hrun eq_refl)
      as (Hr & Hread & Hwrite).
    rewrite writeDayData_completes, Habsent in Hrun by done.
    injection Hrun as <-. cbn. by rewrite lookup_insert_eq.
  - split.
    + intros [s' Hrun]. by eapply writeDayData_true_inv.
    + intros (Hr & Hread & Hwrite). eexists.
      by apply writeDayData_completes.
Qed.

Lemma writeDayData_first_sync_stores_delta_witness :
  documents
    (writeDayData "u1" Scenario.first_delta Scenario.online
       (Scenario.connected ∅ [])).2
  !! ("u1"%string, "2024-01-01"%string) = Some Scenario.first_delta.
Proof.
  destruct (writeDayData_first_sync_stores_delta
              Scenario.online "u1" Scenario.first_delta
              (Scenario.connected ∅ [])) as [Hstored _];
    [reflexivity|].
  apply (Hstored _). by vm_compute.
Defined.

(** C4, as amended.  When the read or the write throws an error whose
    lowercased description contains "network", "enotfound",
    "econnrefused", "etimedout", "timeout" or "socket hang up", the call
    resolves to false, the original delta is appended to the offline
    queue (which grows by exactly one) and the stored documents are
    unchanged: the outcome is Queued.  This holds in particular when the
    description contains "ETIMEDOUT". *)
Theorem writeDayData_network_error_queues env userId (D : IDayData) s e :
  ready s → throws env s e →
  (∃ w : string,
     w ∈ ["network"; "enotfound"; "econnrefused"; "etimedout"; "timeout";
          "socket hang up"]%string
     ∧ Spec.contains (toLowerCase (describe e)) w)
  ∨ Spec.contains (describe e) "ETIMEDOUT" →
  ∃ s', writeDayData userId D env s = (Returned false, s')
    ∧ offlineQueue s' =
      offlineQueue s ++
        [ {| IQueuedUpdate.userId := userId;
             IQueuedUpdate.date := date D;
             IQueuedUpdate.data := D;
             IQueuedUpdate.timestamp := now env (clockReads s) |} ]
    ∧ length (offlineQueue s') = S (length (offlineQueue s))
    ∧ documents s' = documents s
    ∧ Spec.outcomeOf false s s' = Spec.Queued.
Proof.
  intros Hr Hthrows Hwording.
  assert (looksLikeNetworkError e = true) as Hnet.
  { apply looksLikeNetworkError_iff. destruct Hwording as [H|H]; [done|].
    exists "etimedout"%string. split; [set_solver|].
    by apply (toLowerCase_contains _ "ETIMEDOUT"). }
  destruct (writeDayData_throws env userId D s e Hr Hthrows)
    as (s0 & Hq & Hdocs & Hclock & ->).
  rewrite Hnet. eexists. split; [reflexivity|].
  assert (offlineQueue (enqueued env userId D s0) =
          offlineQueue s ++
            [ {| IQueuedUpdate.userId := userId;
                 IQueuedUpdate.date := date D;
                 IQueuedUpdate.data := D;
                 IQueuedUpdate.timestamp := now env (clockReads s) |} ])
    as Hq' by (cbn; by rewrite Hq, Hclock).
  assert (length (offlineQueue (enqueued env userId D s0)) =
          S (length (offlineQueue s))) as Hlen
    by (rewrite Hq', length_app; cbn; lia).
  split; [exact Hq'|]. split; [exact Hlen|]. split; [exact Hdocs|].
  by apply outcomeOf_queued.
Qed.

Lemma writeDayData_network_error_queues_witness :
  ∃ s', writeDayData "u1" Scenario.delta
          (Scenario.failing_at 1 Scenario.timed_out)
          (Scenario.connected ∅ []) = (Returned false, s')
    ∧ offlineQueue s' =
      [ Scenario.queued "u1" Scenario.delta (Scenario.clock 0) ]
    ∧ length (offlineQueue s') = 1%nat
    ∧ documents s' = ∅
    ∧ Spec.outcomeOf false (Scenario.connected ∅ []) s' = Spec.Queued.
Proof.
  apply (writeDayData_network_error_queues
           (Scenario.failing_at 1 Scenario.timed_out) "u1" Scenario.delta
           (Scenario.connected ∅ []) Scenario.timed_out).
  - split; [reflexivity | eexists; reflexivity].
  - right. split; reflexivity.
  - right. exists "connect "%string, " 142.250.74.10:443"%string.
    reflexivity.
Defined.

(** C4 as stated does not hold: a description with socket wording other
    than "socket hang up" is classified as permanent.  The write throws
    "The socket was closed before the write completed"; the call resolves
    to false and the queue stays empty. *)
Lemma socket_wording_is_not_queued :
  ready (Scenario.connected ∅ [])
  ∧ throws (Scenario.failing_at 1 Scenario.socket_closed)
      (Scenario.connected ∅ []) Scenario.socket_closed
  ∧ Spec.contains (toLowerCase (describe Scenario.socket_closed)) "socket"
  ∧ ∃ s', writeDayData "u1" Scenario.delta
            (Scenario.failing_at 1 Scenario.socket_closed)
            (Scenario.connected ∅ []) = (Returned false, s')
      ∧ offlineQueue s' = []
      ∧ length (offlineQueue s')
        ≠ S (length (offlineQueue (Scenario.connected ∅ [])))
      ∧ Spec.outcomeOf false (Scenario.connected ∅ []) s' = Spec.Failed.
Proof.
  split; [split; [reflexivity | eexists; reflexivity]|].
  split; [right; split; reflexivity|].
  split; [by exists "the "%string,
                    " was closed before the write completed"%string|].
  eexists. split; [by vm_compute|]. by vm_compute.
Qed.

(** C6.  When the read or the write throws an error that the classifier
    does not take for a network error, the call resolves to false and
    nothing is enqueued: the offline queue (hence its length) and the
    stored documents are unchanged, so no later drain retries the delta.
    The outcome is Failed. *)
Theorem writeDayData_permanent_error_fails env userId (D : IDayData) s e :
  ready s → throws env s e → looksLikeNetworkError e = false →
  ∃ s', writeDayData userId D env s = (Returned false, s')
    ∧ offlineQueue s' = offlineQueue s
    ∧ length (offlineQueue s') = length (offlineQueue s)
    ∧ documents s' = documents s
    ∧ Spec.outcomeOf false s s' = Spec.Failed.
Proof.
  intros Hr Hthrows Hperm.
  destruct (writeDayData_throws env userId D s e Hr Hthrows)
    as (s0 & Hq & Hdocs & _ & ->).
  rewrite Hperm. exists s0. split; [reflexivity|].
  split; [exact Hq|]. split; [by rewrite Hq|]. split; [exact Hdocs|].
  by apply outcomeOf_failed.
Qed.

Lemma writeDayData_permanent_error_fails_witness :
  ∃ s', writeDayData "u1" Scenario.delta
          (Scenario.failing_at 1 Scenario.denied)
          (Scenario.connected ∅ []) = (Returned false, s')
    ∧ offlineQueue s' = []
    ∧ length (offlineQueue s') = 0%nat
    ∧ documents s' = ∅
    ∧ Spec.outcomeOf false (Scenario.connected ∅ []) s' = Spec.Failed.
Proof.
  apply (writeDayData_permanent_error_fails
           (Scenario.failing_at 1 Scenario.denied) "u1" Scenario.delta
           (Scenario.connected ∅ []) Scenario.denied).
  - split; [reflexivity | eexists; reflexivity].
  - right. split; reflexivity.
  - vm_compute. reflexivity.
Defined.

(** C7.  When the connection is not established ([initialized] is false
    or [db] is null), the call enqueues the delta at once and resolves to
    false without issuing any remote request: the request counter and the
    stored documents are unchanged.  The outcome is Queued. *)
Theorem writeDayData_not_ready_queues env userId (D : IDayData) s :
  initialized s = false ∨ db s = None →
  ∃ s', writeDayData userId D env s = (Returned false, s')
    ∧ offlineQueue s' =
      offlineQueue s ++
        [ {| IQueuedUpdate.userId := userId;
             IQueuedUpdate.date := date D;
             IQueuedUpdate.data := D;
             IQueuedUpdate.timestamp := now env (clockReads s) |} ]
    ∧ remoteCalls s' = remoteCalls s
    ∧ documents s' = documents s
    ∧ Spec.outcomeOf false s s' = Spec.Queued.
Proof.
  intros Hnot. exists (enqueued env userId D s).
  split.
  { apply writeDayData_not_ready. intros [Hi [h Hdb]].
    destruct Hnot; congruence. }
  repeat split. apply outcomeOf_queued.
  change (offlineQueue (enqueued env userId D s)) with
    (offlineQueue s ++
       [ {| IQueuedUpdate.userId := userId;
            IQueuedUpdate.date := date D;
            IQueuedUpdate.data := D;
            IQueuedUpdate.timestamp := now env (clockReads s) |} ]).
  rewrite length_app. cbn. lia.
Qed.

Lemma writeDayData_not_ready_queues_witness :
  ∃ s', writeDayData "u1" Scenario.delta Scenario.online Scenario.not_ready
        = (Returned false, s')
    ∧ offlineQueue s' =
      [ Scenario.queued "u1" Scenario.delta (Scenario.clock 0) ]
    ∧ remoteCalls s' = 0%nat
    ∧ documents s' = ∅
    ∧ Spec.outcomeOf false Scenario.not_ready s' = Spec.Queued.
Proof.
  apply (writeDayData_not_ready_queues
           Scenario.online "u1" Scenario.delta Scenario.not_ready).
  left. reflexivity.
Defined.



(** ** The offline queue *)

(** The body of the loop of [drainOfflineQueue]. *)
Local Abbreviation redeliver :=
  (λ item : IQueuedUpdate.t,
     writeDayData (IQueuedUpdate.userId item) (IQueuedUpdate.data item)
     ≫= λ _ : bool, mret tt).

Lemma redeliver_run env (item : IQueuedUpdate.t) s b s' :
  writeDayData (IQueuedUpdate.userId item) (IQueuedUpdate.data item) env s
  = (Returned b, s') →
  redeliver item env s = (Returned tt, s').
Proof. intros Hrun. unfold mbind, M_bind. by rewrite Hrun. Qed.

Lemma for_of_cons {A} (item : A) rest (body : A → M unit) env s s' :
  body item env s = (Returned tt, s') →
  for_of (item :: rest) body env s = for_of rest body env s'.
Proof. intros Hrun. cbn. unfold mbind, M_bind. by rewrite Hrun. Qed.

(** A call never throws, and it leaves the queue as it was or with its own
    delta appended. *)
Lemma writeDayData_queue env userId (data : IDayData) s :
  ∃ b s' extra,
    writeDayData userId data env s = (Returned b, s')
    ∧ offlineQueue s' = offlineQueue s ++ extra
    ∧ payload <$> extra `sublist_of` [(userId, data)].
Proof.
  assert (∀ s0 : State,
            offlineQueue s0 = offlineQueue s →
            ∃ extra,
              offlineQueue (enqueued env userId data s0)
              = offlineQueue s ++ extra
              ∧ payload <$> extra `sublist_of` [(userId, data)]) as Henq.
  { intros s0 Hq. eexists [_]. cbn. by rewrite Hq. }
  assert (∀ s0 : State,
            offlineQueue s0 = offlineQueue s →
            ∃ extra,
              offlineQueue s0 = offlineQueue s ++ extra
              ∧ payload <$> extra `sublist_of` [(userId, data)]) as Hsame.
  { intros s0 Hq. exists []. rewrite app_nil_r. split; [done|].
    apply sublist_nil_l. }
  destruct (decide (ready s)) as [Hr|Hn].
  - destruct (outcome env (remoteCalls s)) as [e|] eqn:Hread.
    { rewrite (writeDayData_read_throws _ _ _ _ e) by done.
      destruct (looksLikeNetworkError e);
        [destruct (Henq (count_remoteCall s) eq_refl) as (extra & ? & ?)
        |destruct (Hsame (count_remoteCall s) eq_refl) as (extra & ? & ?)];
        by eexists _, _, extra. }
    destruct (outcome env (S (remoteCalls s))) as [e|] eqn:Hwrite.
    { rewrite (writeDayData_write_throws _ _ _ _ e) by done.
      destruct (looksLikeNetworkError e);
        [destruct (Henq (count_remoteCall (count_remoteCall s)) eq_refl)
           as (extra & ? & ?)
        |destruct (Hsame (count_remoteCall (count_remoteCall s)) eq_refl)
           as (extra & ? & ?)];
        by eexists _, _, extra. }
    rewrite writeDayData_completes by done.
    eexists _, _, []. split; [done|]. cbn. rewrite app_nil_r.
    split; [done|]. apply sublist_nil_l.
  - rewrite writeDayData_not_ready by done.
    destruct (Henq s eq_refl) as (extra & ? & ?). by eexists _, _, extra.
Qed.

(** The loop runs to its end, and what it leaves in the queue beyond what
    was there are deltas of the batch, in the order of the batch, each at
    most once. *)
Lemma for_of_redeliver env (batch : list IQueuedUpdate.t) s :
  ∃ s' extra,
    for_of batch redeliver env s = (Returned tt, s')
    ∧ offlineQueue s' = offlineQueue s ++ extra
    ∧ payload <$> extra `sublist_of` payload <$> batch.
Proof.
  revert s. induction batch as [|item rest IH]; intros s.
  - exists s, []. by rewrite app_nil_r.
  - destruct (writeDayData_queue env (IQueuedUpdate.userId item)
                (IQueuedUpdate.data item) s)
      as (b & s1 & extra1 & Hrun & Hq1 & Hsub1).
    destruct (IH s1) as (s' & extra & Hloop & Hq & Hsub).
    exists s', (extra1 ++ extra).
    rewrite (for_of_cons _ _ _ _ _ s1) by by eapply redeliver_run.
    split; [done|]. split; [by rewrite Hq, Hq1, app_assoc|].
    rewrite fmap_app, fmap_cons.
    change (payload item :: (payload <$> rest))
      with ([payload item] ++ (payload <$> rest)).
    by apply sublist_app.
Qed.

(** The drain returns, and the deltas queued after it are deltas of the
    snapshot, in enqueue order, none twice. *)
Lemma drainOfflineQueue_sublist env s :
  ∃ s', drainOfflineQueue env s = (Returned tt, s')
    ∧ payload <$> offlineQueue s' `sublist_of` payload <$> offlineQueue s.
Proof.
  unfold drainOfflineQueue, this, update, mbind, M_bind. cbn.
  destruct (offlineQueue s) as [|item rest] eqn:Hq; cbn.
  - exists s. by rewrite Hq.
  - destruct (for_of_redeliver env (item :: rest) (set_offlineQueue [] s))
      as (s' & extra & Hloop & Hq' & Hsub).
    exists s'. split; [exact Hloop|]. by rewrite Hq'.
Qed.



(** ** The merge of the HTTP API *)

Lemma mergeExisting_languages_lookup (existing : Tracking.ITracking)
    total (incoming : gmap string Z) lang :
  Tracking.languages (Tracking.mergeExisting existing total incoming) !! lang =
  match incoming !! lang with
  | Some seconds =>
      Some (Z.max 0 (or0 (Tracking.languages existing !! lang) + seconds))
  | None => Tracking.languages existing !! lang
  end.
Proof.
  unfold Tracking.mergeExisting. cbn.
  apply (fold_entries_lookup (λ v s, Z.max 0 (or0 v + s))).
Qed.






(** * Further properties of the sources *)

(** ** writeDayData: what a call can and cannot do *)

Lemma writeDayData_cases env userId (data : IDayData) s :
  (¬ ready s
   ∧ writeDayData userId data env s
     = (Returned false, enqueued env userId data s))
  ∨ (ready s ∧ ∃ e s0,
       (s0 = count_remoteCall s ∧ outcome env (remoteCalls s) = Some e
        ∨ s0 = count_remoteCall (count_remoteCall s)
          ∧ outcome env (remoteCalls s) = None
          ∧ outcome env (S (remoteCalls s)) = Some e)
       ∧ writeDayData userId data env s
         = (Returned false,
            if looksLikeNetworkError e
            then enqueued env userId data s0 else s0))
  ∨ (ready s
     ∧ outcome env (remoteCalls s) = None
     ∧ outcome env (S (remoteCalls s)) = None
     ∧ writeDayData userId data env s
       = (Returned true,
          set_documents (Effects.delivered userId data (documents s))
            (count_remoteCall (count_remoteCall s)))).
Proof.
  destruct (decide (ready s)) as [Hr|Hn].
  - destruct (outcome env (remoteCalls s)) as [e|] eqn:Hread.
    { right; left. split; [done|]. exists e, (count_remoteCall s).
      split; [by left|]. by apply writeDayData_read_throws. }
    destruct (outcome env (S (remoteCalls s))) as [e|] eqn:Hwrite.
    { right; left. split; [done|].
      exists e, (count_remoteCall (count_remoteCall s)).
      split; [by right|]. by apply writeDayData_write_throws. }
    right; right. split; [done|]. split; [done|]. split; [done|].
    by apply writeDayData_completes.
  - left. split; [done|]. by apply writeDayData_not_ready.
Qed.


(** X2.  A call of writeDayData never removes or reorders what is in the
    offline queue: the queue after the call is the queue before it,
    followed by nothing or by one update carrying the delta of the call.
    A call that resolves to true appends nothing, so a successful write
    does not retry what is queued; [initialized] and [db] are never
    changed. *)
Theorem writeDayData_only_appends_to_queue
    env userId (data : IDayData) s :
  ∃ b s' extra,
    writeDayData userId data env s = (Returned b, s')
    ∧ offlineQueue s' = offlineQueue s ++ extra
    ∧ (extra = [] ∨ ∃ t, extra = [IQueuedUpdate.mk userId (date data) data t])
    ∧ (b = true → extra = [])
    ∧ initialized s' = initialized s ∧ db s' = db s.
Proof.
  destruct (writeDayData_cases env userId data s)
    as [[_ ->]|[(_ & e & s0 & Hs0 & ->)|(_ & _ & _ & ->)]].
  - eexists _, _, [_]. split; [reflexivity|].
    split; [reflexivity|]. split; [right; by eexists|]. by repeat split.
  - assert (offlineQueue s0 = offlineQueue s ∧ initialized s0 = initialized s
            ∧ db s0 = db s) as (Hq & Hi & Hdb)
      by (destruct Hs0 as [[-> _]|[-> _]]; done).
    destruct (looksLikeNetworkError e).
    + eexists _, _, [_]. split; [reflexivity|]. cbn. rewrite Hq.
      split; [reflexivity|]. split; [right; by eexists|]. by repeat split.
    + eexists _, _, []. split; [reflexivity|]. rewrite app_nil_r.
      split; [done|]. split; [by left|]. by repeat split.
  - eexists _, _, []. split; [reflexivity|]. cbn. rewrite app_nil_r.
    split; [done|]. split; [by left|]. by repeat split.
Qed.

(** X3.  The requests of one call: none when the connection is not
    established, otherwise the read and, only if the read completed, the
    write.  A read that throws is never followed by a write, and a call
    that resolves to true has issued exactly two requests. *)
Theorem writeDayData_request_budget env userId (data : IDayData) s :
  ∃ b s',
    writeDayData userId data env s = (Returned b, s')
    ∧ (¬ ready s → remoteCalls s' = remoteCalls s)
    ∧ (ready s →
       remoteCalls s' =
       match outcome env (remoteCalls s) with
       | Some _ => S (remoteCalls s)
       | None => S (S (remoteCalls s))
       end)
    ∧ (b = true → remoteCalls s' = S (S (remoteCalls s))).
Proof.
  destruct (writeDayData_cases env userId data s)
    as [[Hn ->]|[(Hr & e & s0 & Hs0 & ->)|(Hr & Hread & _ & ->)]].
  - eexists _, _. split; [reflexivity|]. by repeat split.
  - eexists _, _. split; [reflexivity|].
    assert (remoteCalls
              (if looksLikeNetworkError e
               then enqueued env userId data s0 else s0) = remoteCalls s0)
      as -> by by destruct (looksLikeNetworkError e).
    destruct Hs0 as [[-> Hread]|(-> & Hread & _)]; rewrite Hread;
      by repeat split.
  - eexists _, _. split; [reflexivity|]. rewrite Hread. by repeat split.
Qed.

(** ** mergeDayData: algebra of the merge *)











(** ** drainOfflineQueue: what becomes of the batch *)

Lemma for_of_redeliver_all_delivered env (batch : list IQueuedUpdate.t) s :
  ready s →
  (∀ k, (remoteCalls s ≤ k < remoteCalls s + 2 * length batch)%nat →
        outcome env k = None) →
  ∃ s', for_of batch redeliver env s = (Returned tt, s')
    ∧ offlineQueue s' = offlineQueue s
    ∧ documents s' = Effects.deliveredAll batch (documents s)
    ∧ remoteCalls s' = (remoteCalls s + 2 * length batch)%nat
    ∧ clockReads s' = clockReads s.
Proof.
  revert s. induction batch as [|item rest IH]; intros s Hr Hok.
  - exists s. cbn. repeat split. lia.
  - assert (outcome env (remoteCalls s) = None) as Hread
      by (apply Hok; simpl length; lia).
    assert (outcome env (S (remoteCalls s)) = None) as Hwrite
      by (apply Hok; simpl length; lia).
    pose proof (writeDayData_completes env (IQueuedUpdate.userId item)
                  (IQueuedUpdate.data item) s Hr Hread Hwrite) as Hrun.
    rewrite (for_of_cons _ _ _ _ _ _ (redeliver_run _ _ _ _ _ Hrun)).
    edestruct IH as (s' & -> & Hq & Hdocs & Hcalls & Hclock);
      [| |exists s'; split; [reflexivity|]].
    + exact Hr.
    + intros k Hk. apply Hok. simpl length. cbn in Hk. lia.
    + rewrite Hq, Hdocs, Hcalls, Hclock. simpl length. cbn.
      repeat split. lia.
Qed.

(** X7.  When the connection is established and every request of the
    drain completes, the drain empties the queue: every queued delta has
    been merged into the store, in queue order, with two requests per
    update. *)
Theorem drainOfflineQueue_all_delivered env s :
  ready s →
  (∀ k, (remoteCalls s ≤ k
         < remoteCalls s + 2 * length (offlineQueue s))%nat →
        outcome env k = None) →
  ∃ s', drainOfflineQueue env s = (Returned tt, s')
    ∧ offlineQueue s' = []
    ∧ documents s' = Effects.deliveredAll (offlineQueue s) (documents s)
    ∧ remoteCalls s'
      = (remoteCalls s + 2 * length (offlineQueue s))%nat.
Proof.
  intros Hr Hok.
  unfold drainOfflineQueue, this, update, mbind, M_bind. cbn.
  destruct (offlineQueue s) as [|item rest] eqn:Hq; cbn.
  - exists s. rewrite Hq. repeat split. lia.
  - destruct (for_of_redeliver_all_delivered env (item :: rest)
                (set_offlineQueue [] s) Hr Hok)
      as (s' & Hrun & Hq' & Hdocs & Hcalls & _).
    exists s'. by repeat split.
Qed.

Lemma drainOfflineQueue_all_delivered_witness :
  ∃ s', drainOfflineQueue Scenario.online
          (Scenario.connected ∅ Fixtures.three_queued) = (Returned tt, s')
    ∧ offlineQueue s' = []
    ∧ documents s' = Effects.deliveredAll Fixtures.three_queued ∅
    ∧ remoteCalls s' = 6%nat.
Proof.
  apply (drainOfflineQueue_all_delivered Scenario.online
           (Scenario.connected ∅ Fixtures.three_queued)).
  - split; [reflexivity | eexists; reflexivity].
  - intros k _. reflexivity.
Defined.

Lemma for_of_redeliver_not_ready env (batch : list IQueuedUpdate.t) s :
  ¬ ready s →
  ∃ s', for_of batch redeliver env s = (Returned tt, s')
    ∧ payload <$> offlineQueue s'
      = (payload <$> offlineQueue s) ++ (payload <$> batch)
    ∧ documents s' = documents s
    ∧ remoteCalls s' = remoteCalls s
    ∧ initialized s' = initialized s ∧ db s' = db s.
Proof.
  revert s. induction batch as [|item rest IH]; intros s Hn.
  - exists s. by rewrite app_nil_r.
  - pose proof (writeDayData_not_ready env (IQueuedUpdate.userId item)
                  (IQueuedUpdate.data item) s Hn) as Hrun.
    rewrite (for_of_cons _ _ _ _ _ _ (redeliver_run _ _ _ _ _ Hrun)).
    edestruct IH as (s' & -> & Hq & Hdocs & Hcalls & Hi & Hdb);
      [|exists s'; split; [reflexivity|]].
    + exact Hn.
    + rewrite Hq, Hdocs, Hcalls, Hi, Hdb. cbn.
      rewrite fmap_app, <- app_assoc. by repeat split.
Qed.

(** X8.  A drain without an established connection loses nothing and
    contacts nobody: every update of the batch is enqueued again, so the
    queue afterwards carries the same deltas for the same users in the
    same order, and no request is issued. *)
Theorem drainOfflineQueue_not_ready_keeps_everything env s :
  ¬ ready s →
  ∃ s', drainOfflineQueue env s = (Returned tt, s')
    ∧ payload <$> offlineQueue s' = payload <$> offlineQueue s
    ∧ documents s' = documents s
    ∧ remoteCalls s' = remoteCalls s.
Proof.
  intros Hn.
  unfold drainOfflineQueue, this, update, mbind, M_bind. cbn.
  destruct (offlineQueue s) as [|item rest] eqn:Hq; cbn.
  - exists s. by rewrite Hq.
  - destruct (for_of_redeliver_not_ready env (item :: rest)
                (set_offlineQueue [] s) Hn)
      as (s' & Hrun & Hq' & Hdocs & Hcalls & _).
    exists s'. by repeat split.
Qed.

Lemma drainOfflineQueue_not_ready_keeps_everything_witness :
  ∃ s', drainOfflineQueue Scenario.online
          (Fixtures.waiting Fixtures.three_queued) = (Returned tt, s')
    ∧ payload <$> offlineQueue s' = payload <$> Fixtures.three_queued
    ∧ documents s' = ∅
    ∧ remoteCalls s' = 0%nat.
Proof.
  apply (drainOfflineQueue_not_ready_keeps_everything Scenario.online
           (Fixtures.waiting Fixtures.three_queued)).
  intros [Hi _]. discriminate Hi.
Defined.

Lemma for_of_redeliver_fields env (batch : list IQueuedUpdate.t) s s' r :
  for_of batch redeliver env s = (r, s') →
  initialized s' = initialized s ∧ db s' = db s.
Proof.
  revert s. induction batch as [|item rest IH]; intros s Hrun.
  - by injection Hrun as _ <-.
  - assert (∃ b s1,
              writeDayData (IQueuedUpdate.userId item)
                (IQueuedUpdate.data item) env s = (Returned b, s1)
              ∧ initialized s1 = initialized s ∧ db s1 = db s)
      as (b & s1 & Hstep & Hi & Hdb).
    { destruct (writeDayData_cases env (IQueuedUpdate.userId item)
                  (IQueuedUpdate.data item) s)
        as [[_ ->]|[(_ & e & s0 & Hs0 & ->)|(_ & _ & _ & ->)]];
        eexists _, _; (split; [reflexivity|]); [done| |done].
      destruct Hs0 as [[-> _]|[-> _]];
        by destruct (looksLikeNetworkError e). }
    rewrite (for_of_cons _ _ _ _ _ _ (redeliver_run _ _ _ _ _ Hstep))
      in Hrun.
    destruct (IH _ Hrun) as [-> ->]. by split.
Qed.

Lemma drainOfflineQueue_run env s :
  ∃ s', drainOfflineQueue env s = (Returned tt, s')
    ∧ payload <$> offlineQueue s' `sublist_of` payload <$> offlineQueue s
    ∧ initialized s' = initialized s ∧ db s' = db s.
Proof.
  unfold drainOfflineQueue, this, update, mbind, M_bind. cbn.
  destruct (offlineQueue s) as [|item rest] eqn:Hq; cbn.
  - exists s. by rewrite Hq.
  - destruct (for_of_redeliver env (item :: rest) (set_offlineQueue [] s))
      as (s' & extra & Hloop & Hq' & Hsub).
    destruct (for_of_redeliver_fields _ _ _ _ _ Hloop) as [Hi Hdb].
    exists s'. split; [exact Hloop|]. by rewrite Hq'.
Qed.


(** X10.  An update whose redelivery fails with an error that is not a
    network error does not stay in the queue: with that update alone in
    the queue, the drain leaves the queue empty and the store unchanged,
    and the delta is gone. *)
Theorem drainOfflineQueue_drops_permanent_failure
    env s (A : IQueuedUpdate.t) e :
  ready s → offlineQueue s = [A] → throws env s e →
  looksLikeNetworkError e = false →
  ∃ s', drainOfflineQueue env s = (Returned tt, s')
    ∧ offlineQueue s' = []
    ∧ documents s' = documents s.
Proof.
  intros Hr Hq Hthrows Hperm.
  pose (s0 := set_offlineQueue [] s).
  assert (drainOfflineQueue env s = for_of [A] redeliver env s0) as ->.
  { unfold drainOfflineQueue, this, update, mbind, M_bind.
    by rewrite Hq. }
  destruct (writeDayData_throws env (IQueuedUpdate.userId A)
              (IQueuedUpdate.data A) s0 e Hr Hthrows)
    as (s1 & Hq1 & Hdocs1 & _ & Hrun).
  rewrite Hperm in Hrun.
  rewrite (for_of_cons _ _ _ _ _ _ (redeliver_run _ _ _ _ _ Hrun)).
  exists s1. by repeat split.
Qed.

Lemma drainOfflineQueue_drops_permanent_failure_witness :
  ∃ s', drainOfflineQueue (Scenario.failing_at 1 Scenario.denied)
          (Scenario.connected ∅ [Scenario.queued_A]) = (Returned tt, s')
    ∧ offlineQueue s' = []
    ∧ documents s' = ∅.
Proof.
  apply (drainOfflineQueue_drops_permanent_failure
           (Scenario.failing_at 1 Scenario.denied)
           (Scenario.connected ∅ [Scenario.queued_A])
           Scenario.queued_A Scenario.denied).
  - split; [reflexivity | eexists; reflexivity].
  - reflexivity.
  - right. split; reflexivity.
  - vm_compute. reflexivity.
Defined.

(** ** looksLikeNetworkError: what the classification depends on *)

Lemma append_assoc (a b c : string) : (a +:+ b) +:+ c = a +:+ (b +:+ c).
Proof.
  induction a as [|ch a IH]; [done|].
  rewrite !append_cons. by rewrite IH.
Qed.

Lemma contains_trans (a b c : string) :
  Spec.contains a b → Spec.contains b c → Spec.contains a c.
Proof.
  intros (p1 & q1 & ->) (p2 & q2 & ->).
  exists (p1 +:+ p2), (q2 +:+ q1). by rewrite !append_assoc.
Qed.

(** X11.  The classification looks at nothing but the lowercased
    description, and it survives wrapping: when the lowercased
    description of [e] occurs inside the lowercased description of [e']
    (the message was prefixed, suffixed, or had the case of its ASCII
    letters changed, as an Error or as any other thrown value) and [e]
    is taken for a network error, so is [e']. *)
Theorem looksLikeNetworkError_survives_wrapping (e e' : Thrown) :
  Spec.contains (toLowerCase (describe e')) (toLowerCase (describe e)) →
  looksLikeNetworkError e = true →
  looksLikeNetworkError e' = true.
Proof.
  intros Hwrap Hnet.
  apply looksLikeNetworkError_iff in Hnet as (w & Hw & Hin).
  apply looksLikeNetworkError_iff. exists w. split; [done|].
  by eapply contains_trans.
Qed.

Lemma looksLikeNetworkError_survives_wrapping_witness :
  looksLikeNetworkError Fixtures.wrapped_timeout = true.
Proof.
  apply (looksLikeNetworkError_survives_wrapping
           Scenario.timed_out Fixtures.wrapped_timeout).
  - by exists "sync failed: "%string, " (retrying)"%string.
  - vm_compute. reflexivity.
Defined.

(** ** formatDuration: the text of a duration *)

Import TrackingMethods.

Lemma append_empty_r (s : string) : s +:+ ""%string = s.
Proof.
  induction s as [|c s IH]; [done|]. by rewrite append_cons, IH.
Qed.

Lemma digits_app (a b : string) :
  digits (a +:+ b) = digits a && digits b.
Proof.
  induction a as [|c a IH]; [done|].
  rewrite append_cons. simpl. by rewrite IH, andb_assoc.
Qed.

Lemma isDigit_pretty_N_char (x : N) :
  Tracking.isDigit (pretty_N_char x) = true.
Proof. unfold pretty_N_char. by repeat case_match. Qed.

Lemma pretty_N_go_digits (x : N) (s : string) :
  ∃ d, pretty_N_go x s = d +:+ s ∧ digits d = true
       ∧ ((0 < x)%N → d ≠ ""%string).
Proof.
  revert s. induction (N.lt_wf_0 x) as [x _ IH]; intros s.
  assert (x = 0 ∨ 0 < x)%N as [->|Hpos] by lia.
  - exists ""%string. rewrite pretty_N_go_0. repeat split. lia.
  - rewrite pretty_N_go_step by done.
    destruct (IH (x `div` 10)%N (N.div_lt x 10 Hpos eq_refl)
                (String (pretty_N_char (x `mod` 10)) s))
      as (d & -> & Hd & _).
    exists (d +:+ String (pretty_N_char (x `mod` 10)) "").
    rewrite append_assoc, append_cons, append_nil.
    split; [done|]. split.
    + rewrite digits_app, Hd. simpl.
      by rewrite isDigit_pretty_N_char.
    + intros _. by destruct d.
Qed.

Lemma numberToString_digits (n : Z) :
  0 ≤ n →
  digits (numberToString n) = true ∧ numberToString n ≠ ""%string.
Proof.
  intros Hn. unfold numberToString, pretty, pretty_Z.
  destruct n as [|p|p]; [done| |lia].
  unfold pretty, pretty_positive, pretty, pretty_N.
  rewrite decide_False by done.
  destruct (pretty_N_go_digits (N.pos p) "") as (d & -> & Hd & Hne).
  rewrite append_empty_r. split; [done|]. apply Hne. lia.
Qed.

(** A run of digits stops at the first character that is not a digit. *)
Lemma digits_then_letter (d1 d2 : string) c1 c2 (r1 r2 : string) :
  digits d1 = true → digits d2 = true →
  Tracking.isDigit c1 = false → Tracking.isDigit c2 = false →
  d1 +:+ String c1 r1 = d2 +:+ String c2 r2 →
  d1 = d2 ∧ c1 = c2 ∧ r1 = r2.
Proof.
  revert d2. induction d1 as [|a d1 IH]; intros [|b d2] H1 H2 Hc1 Hc2.
  - rewrite !append_nil. by intros [= -> ->].
  - rewrite append_nil, append_cons. intros [= -> _].
    simpl in H2. rewrite Hc1 in H2. done.
  - rewrite append_nil, append_cons. intros [= -> _].
    simpl in H1. rewrite Hc2 in H1. done.
  - rewrite !append_cons. intros [= -> Hrest].
    simpl in H1, H2. apply andb_true_iff in H1 as [_ H1].
    apply andb_true_iff in H2 as [_ H2].
    destruct (IH d2 H1 H2 Hc1 Hc2 Hrest) as (-> & -> & ->). done.
Qed.

Lemma render_cons n unit (rest : list (Z * ascii)) :
  render ((n, unit) :: rest) =
  numberToString n +:+
    String unit (match rest with
                 | [] => ""
                 | _ => String " " (render rest)
                 end).
Proof.
  unfold render. destruct rest as [|[n' unit'] rest]; simpl.
  - done.
  - by rewrite append_assoc, append_cons, append_nil.
Qed.

Lemma render_injective (ps qs : list (Z * ascii)) :
  Forall (λ p, 0 ≤ p.1 ∧ Tracking.isDigit p.2 = false) ps →
  Forall (λ p, 0 ≤ p.1 ∧ Tracking.isDigit p.2 = false) qs →
  render ps = render qs → ps = qs.
Proof.
  intros Hps. revert qs.
  induction Hps as [|[n u] ps [Hn Hu] Hps IH]; intros qs Hqs Heq.
  - destruct Hqs as [|[m v] qs [Hm _] _]; [done|].
    rewrite render_cons in Heq.
    destruct (numberToString_digits m Hm) as [_ Hne].
    destruct (numberToString m); [done|]. by rewrite append_cons in Heq.
  - destruct Hqs as [|[m v] qs [Hm Hv] Hqs].
    { rewrite render_cons in Heq.
      destruct (numberToString_digits n Hn) as [_ Hne].
      destruct (numberToString n); [done|]. by rewrite append_cons in Heq. }
    cbn in Hn, Hu, Hm, Hv. rewrite !render_cons in Heq.
    destruct (numberToString_digits n Hn) as [Hdn _].
    destruct (numberToString_digits m Hm) as [Hdm _].
    apply digits_then_letter in Heq as (Hnm & -> & Htail); [|done..].
    apply (inj pretty) in Hnm as ->.
    destruct ps as [|p ps], qs as [|q qs]; [done|done|done|].
    injection Htail as Htail. f_equal. by apply IH.
Qed.

Lemma formatDuration_render (d : Tracking.ITracking) :
  formatDuration d = render (partsOf (Tracking.totalSeconds d)).
Proof.
  unfold formatDuration, partsOf, render. cbv zeta.
  destruct (0 <? Tracking.totalSeconds d / 3600),
    (0 <? Z.rem (Tracking.totalSeconds d) 3600 / 60),
    (0 <? Z.rem (Tracking.totalSeconds d) 60); reflexivity.
Qed.

Lemma partsOf_wellformed (total : Z) :
  0 ≤ total →
  Forall (λ p, 0 ≤ p.1 ∧ Tracking.isDigit p.2 = false) (partsOf total).
Proof.
  intros Htotal. unfold partsOf. cbv zeta.
  assert (0 ≤ Z.rem total 60) by (apply Z.rem_nonneg; lia).
  assert (0 ≤ total / 3600) by (apply Z.div_pos; lia).
  assert (0 ≤ Z.rem total 3600 / 60)
    by (apply Z.div_pos; [apply Z.rem_nonneg|]; lia).
  repeat apply Forall_app_2; repeat case_match;
    repeat constructor; cbn; done.
Qed.

Lemma secondsOf_partsOf (total : Z) :
  0 ≤ total → secondsOf (partsOf total) = total.
Proof.
  intros Htotal. unfold partsOf. cbv zeta.
  rewrite !Z.rem_mod_nonneg by lia.
  destruct (Z.ltb_spec 0 (total / 3600)),
    (Z.ltb_spec 0 (total `mod` 3600 / 60)),
    (Z.ltb_spec 0 (total `mod` 60)); cbn;
    repeat case_bool_decide; try done;
    Z.div_mod_to_equations; lia.
Qed.

(** X12.  Two documents with different non-negative totalSeconds never
    get the same text: the text of a duration determines the duration. *)
Theorem formatDuration_distinguishes (a b : Tracking.ITracking) :
  0 ≤ Tracking.totalSeconds a → 0 ≤ Tracking.totalSeconds b →
  Tracking.totalSeconds a ≠ Tracking.totalSeconds b →
  formatDuration a ≠ formatDuration b.
Proof.
  intros Ha Hb Hne Heq. apply Hne.
  rewrite !formatDuration_render in Heq.
  apply render_injective in Heq; [|by apply partsOf_wellformed..].
  rewrite <- (secondsOf_partsOf _ Ha), <- (secondsOf_partsOf _ Hb).
  by rewrite Heq.
Qed.

Lemma formatDuration_distinguishes_witness :
  formatDuration (Fixtures.lasting 3600) ≠ formatDuration (Fixtures.lasting 60).
Proof.
  apply (formatDuration_distinguishes
           (Fixtures.lasting 3600) (Fixtures.lasting 60)); cbn; lia.
Defined.

(** X13.  For a non-negative totalSeconds the text is made of the parts
    the code pushes, and they add up: hours, minutes and seconds are
    shown only when they are positive (seconds also when nothing else is),
    minutes and seconds stay below 60, and
    3600 * hours + 60 * minutes + seconds is totalSeconds. *)
Theorem formatDuration_parts_add_up (d : Tracking.ITracking) :
  0 ≤ Tracking.totalSeconds d →
  formatDuration d = render (partsOf (Tracking.totalSeconds d))
  ∧ secondsOf (partsOf (Tracking.totalSeconds d)) = Tracking.totalSeconds d
  ∧ partsOf (Tracking.totalSeconds d) ≠ []
  ∧ (∀ n unit, (n, unit) ∈ partsOf (Tracking.totalSeconds d) →
       0 ≤ n ∧ (unit = "h"%char ∨ n < 60)
       ∧ (0 < n ∨ Tracking.totalSeconds d < 60)).
Proof.
  intros Htotal.
  split; [apply formatDuration_render|].
  split; [by apply secondsOf_partsOf|].
  unfold partsOf. cbv zeta. rewrite !Z.rem_mod_nonneg by lia.
  destruct (Z.ltb_spec 0 (Tracking.totalSeconds d / 3600)),
    (Z.ltb_spec 0 (Tracking.totalSeconds d `mod` 3600 / 60)),
    (Z.ltb_spec 0 (Tracking.totalSeconds d `mod` 60)); cbn;
    (split; [done|]); intros n unit Hin;
    repeat (apply elem_of_cons in Hin as [[= -> ->]|Hin]);
    try (by apply elem_of_nil in Hin);
    (split; [|split]); try (by left); try (Z.div_mod_to_equations; lia);
    right; Z.div_mod_to_equations; lia.
Qed.

Lemma formatDuration_parts_add_up_witness :
  formatDuration (Fixtures.lasting 7260) = "2h 1m"%string
  ∧ secondsOf (partsOf 7260) = 7260.
Proof.
  destruct (formatDuration_parts_add_up (Fixtures.lasting 7260))
    as (Htext & Hsum & _); [cbn; lia|].
  split; [|exact Hsum]. rewrite Htext. by vm_compute.
Defined.

(** X14.  A negative totalSeconds is shown as its remainder of seconds
    alone: hours and minutes are never positive then, so the text is
    [`${totalSeconds % 60}s`], the whole hours and minutes dropped. *)
Theorem formatDuration_negative (d : Tracking.ITracking) :
  Tracking.totalSeconds d < 0 →
  formatDuration d
  = numberToString (Z.rem (Tracking.totalSeconds d) 60) +:+ "s".
Proof.
  intros Hneg. unfold formatDuration. cbv zeta.
  assert (Tracking.totalSeconds d / 3600 < 0)
    by (Z.div_mod_to_equations; lia).
  assert (Z.rem (Tracking.totalSeconds d) 3600 ≤ 0)
    by (apply Z.rem_nonpos; lia).
  assert (Z.rem (Tracking.totalSeconds d) 3600 / 60 ≤ 0)
    by (Z.div_mod_to_equations; lia).
  assert (Z.rem (Tracking.totalSeconds d) 60 ≤ 0)
    by (apply Z.rem_nonpos; lia).
  by rewrite !(proj2 (Z.ltb_ge _ _)) by lia.
Qed.

Lemma formatDuration_negative_witness :
  formatDuration (Fixtures.lasting (-3700)) = "-40s"%string.
Proof.
  rewrite (formatDuration_negative (Fixtures.lasting (-3700)));
    [by vm_compute | cbn; lia].
Defined.

(** ** initialize and dispose *)

Import Lifecycle.

Ltac run_lifecycle :=
  unfold initialize, dispose, sdk, try_catch, update, this, mbind, M_bind,
    mret, M_ret; cbn.

Lemma initialize_connects env (config : IFirebaseConfig) s :
  initialized s = false →
  initialize (Some config) None env s =
  match drainOfflineQueue env
          (set_initialized true (set_db (Some FirestoreClient) s)) with
  | (Returned _, s') => (Returned true, s')
  | (Threw _, s') => (Returned false, s')
  end.
Proof.
  intros Hi. run_lifecycle. rewrite Hi.
  by destruct (drainOfflineQueue env _) as [[?|?] ?].
Qed.


(** X16.  Connecting flushes the queue: when a stored configuration
    exists, the set-up does not throw and every request of the drain
    completes, initialize resolves to true with an empty queue, and every
    delta that was queued has been merged into the store, in queue
    order. *)
Theorem initialize_flushes_queue env (config : IFirebaseConfig) s :
  initialized s = false →
  (∀ k, (remoteCalls s ≤ k
         < remoteCalls s + 2 * length (offlineQueue s))%nat →
        outcome env k = None) →
  ∃ s', initialize (Some config) None env s = (Returned true, s')
    ∧ ready s'
    ∧ offlineQueue s' = []
    ∧ documents s' = Effects.deliveredAll (offlineQueue s) (documents s).
Proof.
  intros Hi Hok. rewrite initialize_connects by done.
  pose (s0 := set_initialized true (set_db (Some FirestoreClient) s)).
  assert (ready s0) as Hr0 by (split; [done|by eexists]).
  destruct (drainOfflineQueue_run env s0) as (s' & Hrun & _ & Hi' & Hdb').
  assert (∃ s'', drainOfflineQueue env s0 = (Returned tt, s'')
            ∧ offlineQueue s'' = []
            ∧ documents s''
              = Effects.deliveredAll (offlineQueue s) (documents s))
    as (s'' & Hrun' & Hq & Hdocs).
  { unfold drainOfflineQueue, this, update, mbind, M_bind. cbn.
    destruct (offlineQueue s) as [|item rest] eqn:Hqueue; cbn.
    - by exists s0.
    - destruct (for_of_redeliver_all_delivered env (item :: rest)
                  (set_offlineQueue [] s0) Hr0 Hok)
        as (s'' & Hloop & Hq'' & Hdocs'' & _).
      exists s''. by repeat split. }
  fold s0. rewrite Hrun'. rewrite Hrun in Hrun'. injection Hrun' as <-.
  exists s'. split; [done|]. split; [|by split].
  split; [by rewrite Hi'|]. rewrite Hdb'. by eexists.
Qed.

Lemma initialize_flushes_queue_witness :
  ∃ s', initialize (Some (mkConfig "demo" "sync@demo.example" "KEY")) None
          Scenario.online (Fixtures.waiting Fixtures.three_queued)
        = (Returned true, s')
    ∧ ready s'
    ∧ offlineQueue s' = []
    ∧ documents s' = Effects.deliveredAll Fixtures.three_queued ∅.
Proof.
  apply (initialize_flushes_queue Scenario.online
           (mkConfig "demo" "sync@demo.example" "KEY")
           (Fixtures.waiting Fixtures.three_queued)).
  - reflexivity.
  - intros k _. reflexivity.
Defined.

Lemma dispose_run env apps deleted s :
  ∃ s1, drainOfflineQueue env s = (Returned tt, s1)
    ∧ payload <$> offlineQueue s1 `sublist_of` payload <$> offlineQueue s
    ∧ initialized s1 = initialized s ∧ db s1 = db s
    ∧ dispose apps deleted env s =
      if initialized s && (0 <? apps)%nat then
        match deleted with
        | Some e => (Threw e, s1)
        | None => (Returned tt, set_initialized false s1)
        end
      else (Returned tt, s1).
Proof.
  destruct (drainOfflineQueue_run env s) as (s1 & Hrun & Hsub & Hi & Hdb).
  exists s1. split; [done|]. split; [done|]. split; [done|]. split; [done|].
  run_lifecycle.
  destruct (offlineQueue s) as [|item rest] eqn:Hq.
  - assert (s1 = s) as ->.
    { unfold drainOfflineQueue, this, mbind, M_bind in Hrun. cbn in Hrun.
      rewrite Hq in Hrun. by injection Hrun. }
    cbn. destruct (initialized s), apps, deleted; by cbn.
  - cbn. rewrite Hrun, Hi.
    destruct (initialized s), apps, deleted; by cbn.
Qed.


(** X18.  Once dispose has let go of the app, nothing is sent any more:
    on an initialized manager with an app whose deletion completes,
    dispose resolves, and every later writeDayData resolves to false
    after queueing its delta, without a request. *)
Theorem writeDayData_after_dispose_only_queues env apps s :
  initialized s = true → (0 < apps)%nat →
  ∃ s1, dispose apps None env s = (Returned tt, s1)
    ∧ initialized s1 = false
    ∧ ∀ env' userId (data : IDayData),
        ∃ s2, writeDayData userId data env' s1 = (Returned false, s2)
          ∧ offlineQueue s2 =
            offlineQueue s1 ++
              [IQueuedUpdate.mk userId (date data) data
                 (now env' (clockReads s1))]
          ∧ remoteCalls s2 = remoteCalls s1
          ∧ documents s2 = documents s1.
Proof.
  intros Hinit Happs.
  destruct (dispose_run env apps None s) as (s1 & _ & _ & _ & _ & ->).
  rewrite Hinit. destruct apps as [|n]; [lia|]. cbn.
  eexists. split; [reflexivity|]. split; [done|].
  intros env' userId data. eexists.
  split; [apply writeDayData_not_ready; by intros [[=] _] | done].
Qed.

Lemma writeDayData_after_dispose_only_queues_witness :
  ∃ s1, dispose 1 None Scenario.online (Scenario.connected ∅ [])
        = (Returned tt, s1)
    ∧ initialized s1 = false
    ∧ ∀ env' userId (data : IDayData),
        ∃ s2, writeDayData userId data env' s1 = (Returned false, s2)
          ∧ offlineQueue s2 =
            offlineQueue s1 ++
              [IQueuedUpdate.mk userId (date data) data
                 (now env' (clockReads s1))]
          ∧ remoteCalls s2 = remoteCalls s1
          ∧ documents s2 = documents s1.
Proof.
  apply (writeDayData_after_dispose_only_queues Scenario.online 1
           (Scenario.connected ∅ [])); [reflexivity | lia].
Defined.

(** ** POST /api/track: the checks before the database *)

Import Route.

Lemma firstInvalid_None (entries : list (string * JSON)) :
  firstInvalid entries = None ↔
  ∀ lang v, (lang, v) ∈ entries → ∃ n, v = JNumber n ∧ 0 ≤ n.
Proof.
  induction entries as [|[lang v] entries IH]; simpl.
  - split; [|done]. intros _ lang v Hin. by apply elem_of_nil in Hin.
  - destruct (invalidSeconds v) eqn:Hv.
    + split; [done|]. intros Hall.
      destruct (Hall lang v) as (n & -> & Hn); [left|].
      simpl in Hv. apply Z.ltb_lt in Hv. lia.
    + rewrite IH. split.
      * intros Hall lang' v' Hin.
        apply elem_of_cons in Hin as [[= -> ->]|Hin]; [|by eapply Hall].
        destruct v; try done. simpl in Hv. apply Z.ltb_ge in Hv. by eexists.
      * intros Hall lang' v' Hin. apply (Hall lang' v'). by right.
Qed.

Lemma bearerToken_Some (request : Request) tok :
  bearerToken request = Some tok ↔
  ∃ header, authorization request = Some header
    ∧ String.prefix "Bearer " header = true
    ∧ split " " header !! 1%nat = Some tok
    ∧ (16 ≤ String.length tok)%nat.
Proof.
  unfold bearerToken. destruct (authorization request) as [header|]; simpl.
  2:{ split; [done|]. by intros (? & [=] & _). }
  destruct (String.prefix "Bearer " header) eqn:Hprefix.
  2:{ split; [done|]. intros (? & [= <-] & ? & _). congruence. }
  destruct (split " " header !! 1%nat) as [t|] eqn:Hsplit; simpl.
  2:{ split; [done|]. intros (? & [= <-] & _ & ? & _). congruence. }
  destruct (Nat.ltb_spec (String.length t) 16).
  - split; [done|]. intros (? & [= <-] & _ & Ht & ?).
    rewrite Hsplit in Ht. injection Ht as ->. lia.
  - split.
    + intros [= <-]. by exists header.
    + intros (? & [= <-] & _ & Ht & _). congruence.
Qed.

(** X19.  The handler answers 401 exactly when the Authorization header
    does not carry a bearer token of at least 16 characters (the header
    is missing, does not start with "Bearer ", or the text between its
    first and second space is shorter), and it does so whatever the body
    is: the body is not looked at before the token. *)
Theorem POST_checks_unauthorized (request : Request) :
  (∃ msg, POST_checks request = inl {| status := 401; error := msg |})
  ↔ bearerToken request = None.
Proof.
  unfold POST_checks, bearerToken, internalError.
  destruct (authorization request) as [header|]; simpl; [|by split; eauto].
  destruct (String.prefix "Bearer " header) eqn:Hprefix; simpl.
  2:{ rewrite orb_true_r. split; eauto. }
  assert (header ≠ ""%string) as Hne by by intros ->.
  rewrite bool_decide_eq_false_2 by done. simpl.
  destruct (split " " header !! 1%nat) as [t|] eqn:Hsplit; simpl.
  2:{ split; eauto. }
  destruct (Nat.ltb_spec (String.length t) 16) as [Hshort|Hlong].
  { rewrite orb_true_r. split; eauto. }
  assert (t ≠ ""%string) as Ht by (intros ->; simpl in Hlong; lia).
  rewrite bool_decide_eq_false_2 by done. simpl.
  split; [|done]. intros [msg Hmsg]. exfalso.
  repeat case_match; simplify_eq.
Qed.

Lemma bearerToken_checks (s : string) :
  bool_decide (s = ""%string) || negb (String.prefix "Bearer " s) = false →
  bool_decide (default ""%string (split " " s !! 1%nat) = ""%string)
  || (String.length (default ""%string (split " " s !! 1%nat)) <? 16)%nat
  = false →
  split " " s !! 1%nat = Some (default ""%string (split " " s !! 1%nat))
  ∧ String.prefix "Bearer " s = true
  ∧ (16 ≤ String.length (default ""%string (split " " s !! 1%nat)))%nat.
Proof.
  intros [_ Hprefix%negb_false_iff]%orb_false_iff
         [Hne%bool_decide_eq_false Hlen%Nat.ltb_ge]%orb_false_iff.
  split; [|done]. by destruct (split " " s !! 1%nat).
Qed.

(** X20.  Whatever passes the checks is well formed: the token is the
    bearer token of the header and has at least 16 characters, the body
    is an object whose userId is a non-empty string, whose date, turned
    into text, matches YYYY-MM-DD, whose totalSeconds is a non-negative
    number, and whose languages is an object (or array) in which every
    entry is a non-negative number.  Nothing else reaches the
    database. *)
Theorem POST_checks_accepts_only_valid (request : Request) (a : Accepted) :
  POST_checks request = inr a →
  bearerToken request = Some (token a)
  ∧ (∃ members,
       body request = Some (JObject members)
       ∧ member members "userId" = Some (JString (userId a))
       ∧ member members "date" = Some (date a)
       ∧ member members "totalSeconds" = Some (JNumber (totalSeconds a))
       ∧ member members "languages" = Some (languages a))
  ∧ userId a ≠ ""%string
  ∧ (∃ text, toStringJS (date a) = Some text
             ∧ Tracking.matchesDate text = true)
  ∧ 0 ≤ totalSeconds a
  ∧ (∀ lang v, (lang, v) ∈ entriesOf (languages a) →
       ∃ n, v = JNumber n ∧ 0 ≤ n).
Proof.
  unfold POST_checks. intros H.
  repeat case_match; simplify_eq; cbn [token userId date totalSeconds
                                        languages property] in *;
    match goal with
    | H1 : _ || negb (String.prefix _ _) = false, H2 : _ || _ = false |- _ =>
        destruct (bearerToken_checks _ H1 H2) as (Hsplit & Hprefix & Hlen)
    end;
    match goal with
    | H : member _ "date" ≫= toStringJS = Some _ |- _ =>
        destruct (member _ "date") as [d|] eqn:Hdate; [cbn in H|done]
    end;
    (split; [apply bearerToken_Some; by eexists|]);
    (split; [by eexists|]);
    (split; [by eapply bool_decide_eq_false_1|]);
    (split; [eexists; split; [done|]; by apply negb_false_iff|]);
    (split; [by apply Z.ltb_ge|]);
    by apply firstInvalid_None.
Qed.

Lemma POST_checks_accepts_only_valid_witness :
  bearerToken Fixtures.sync_request = Some "0123456789abcdef0123"%string
  ∧ ∀ lang v,
      (lang, v) ∈ [ ("go"%string, JNumber 10); ("rust"%string, JNumber 20) ] →
      ∃ n, v = JNumber n ∧ 0 ≤ n.
Proof.
  destruct (POST_checks_accepts_only_valid Fixtures.sync_request
              {| token := "0123456789abcdef0123"; userId := "u1";
                 date := JString "2024-01-01"; totalSeconds := 30;
                 languages :=
                   JObject [ ("go"%string, JNumber 10);
                             ("rust"%string, JNumber 20) ] |})
    as (Htoken & _ & _ & _ & _ & Hlangs); [by vm_compute|].
  split; [exact Htoken | exact Hlangs].
Defined.

(** X21.  Every well-formed request passes: with a bearer token of at
    least 16 characters and an object body whose userId is a non-empty
    string, whose date is truthy and gives a text matching YYYY-MM-DD,
    whose totalSeconds is a non-negative number and whose languages is an
    object with non-negative numbers only, the checks hand on exactly
    these values. *)
Theorem POST_checks_accepts_valid
    (request : Request) tok members uid d text total langs :
  bearerToken request = Some tok →
  body request = Some (JObject members) →
  member members "userId" = Some (JString uid) → uid ≠ ""%string →
  member members "date" = Some d → truthy (Some d) = true →
  toStringJS d = Some text → Tracking.matchesDate text = true →
  member members "totalSeconds" = Some (JNumber total) → 0 ≤ total →
  member members "languages" = Some (JObject langs) →
  (∀ lang v, (lang, v) ∈ langs → ∃ n, v = JNumber n ∧ 0 ≤ n) →
  POST_checks request =
  inr {| token := tok; userId := uid; date := d; totalSeconds := total;
         languages := JObject langs |}.
Proof.
  intros Htok Hbody Huid Hne Hdate Htruthy Htext Hmatch Htotal Hnonneg
    Hlangs Hvalid.
  apply bearerToken_Some in Htok
    as (header & Hheader & Hprefix & Hsplit & Hlen).
  assert (header ≠ ""%string) as Hh by (intros ->; done).
  assert (tok ≠ ""%string) as Ht by (intros ->; simpl in Hlen; lia).
  unfold POST_checks. rewrite Hheader, Hprefix, Hsplit, Hbody.
  cbn [default property negb orb].
  rewrite !bool_decide_eq_false_2 by done.
  rewrite (proj2 (Nat.ltb_ge _ _)) by done.
  cbn [default property negb orb].
  rewrite Huid, Hdate, Htotal, Hlangs.
  rewrite !bool_decide_eq_false_2 by done.
  rewrite Htruthy. cbn [negb mbind option_bind].
  rewrite Htext, Hmatch. cbn [negb].
  rewrite (proj2 (Z.ltb_ge _ _)) by done.
  cbn [entriesOf].
  by rewrite (proj2 (firstInvalid_None langs)) by done.
Qed.

Lemma POST_checks_accepts_valid_witness :
  POST_checks Fixtures.sync_request =
  inr {| token := "0123456789abcdef0123"; userId := "u1";
         date := JString "2024-01-01"; totalSeconds := 30;
         languages :=
           JObject [ ("go"%string, JNumber 10);
                     ("rust"%string, JNumber 20) ] |}.
Proof.
  apply (POST_checks_accepts_valid Fixtures.sync_request
           "0123456789abcdef0123"
           [ ("userId"%string, JString "u1");
             ("date"%string, JString "2024-01-01");
             ("totalSeconds"%string, JNumber 30);
             ("languages"%string,
              JObject [ ("go"%string, JNumber 10);
                        ("rust"%string, JNumber 20) ]) ]
           "u1" (JString "2024-01-01") "2024-01-01" 30
           [ ("go"%string, JNumber 10); ("rust"%string, JNumber 20) ]);
    try reflexivity; try done.
  intros lang v Hin.
  apply elem_of_cons in Hin as [[= -> ->]|Hin]; [by exists 10|].
  apply elem_of_cons in Hin as [[= -> ->]|Hin]; [by exists 20|].
  by apply elem_of_nil in Hin.
Defined.

(** X22.  The checks answer 500 in two cases only, both behind a valid
    token: the body is the JSON literal null (destructuring it throws),
    or the userId is a non-empty string and the date is a truthy value
    that cannot be turned into text (an object with a member "toString",
    alone or inside arrays).  Every other malformed body gets a 400. *)
Theorem POST_checks_internal_error (request : Request) :
  POST_checks request = inl internalError ↔
  ∃ tok, bearerToken request = Some tok
    ∧ (body request = Some JNull
       ∨ ∃ members uid d,
           body request = Some (JObject members)
           ∧ member members "userId" = Some (JString uid)
           ∧ uid ≠ ""%string
           ∧ member members "date" = Some d
           ∧ truthy (Some d) = true
           ∧ toStringJS d = None).
Proof.
  split.
  - unfold POST_checks, internalError. intros H.
    repeat case_match; simplify_eq; cbn [property] in *;
      match goal with
      | H1 : _ || negb (String.prefix _ _) = false, H2 : _ || _ = false |- _ =>
          destruct (bearerToken_checks _ H1 H2) as (Hsplit & Hprefix & Hlen)
      end;
      (eexists; split; [apply bearerToken_Some; by eexists|]);
      [by left|right].
    match goal with
    | H : member _ "date" ≫= toStringJS = None |- _ =>
        destruct (member _ "date") as [d|] eqn:Hdate; [cbn in H|done]
    end.
    eexists _, _, d. split; [done|]. split; [done|].
    split; [by eapply bool_decide_eq_false_1|]. split; [done|].
    split; [by apply negb_false_iff|done].
  - intros (tok & Htok & Hbody).
    apply bearerToken_Some in Htok
      as (header & Hheader & Hprefix & Hsplit & Hlen).
    assert (header ≠ ""%string) as Hh by (intros ->; done).
    assert (tok ≠ ""%string) as Ht by (intros ->; simpl in Hlen; lia).
    unfold POST_checks. rewrite Hheader, Hprefix, Hsplit.
    cbn [default negb orb].
    rewrite !bool_decide_eq_false_2 by done.
    rewrite (proj2 (Nat.ltb_ge _ _)) by done. cbn [orb].
    destruct Hbody as [->|(members & uid & d & -> & Huid & Hne & Hdate
                           & Htruthy & Htext)]; [done|].
    cbn [property]. rewrite Huid, Hdate.
    rewrite bool_decide_eq_false_2 by done.
    rewrite Htruthy. cbn [negb mbind option_bind]. by rewrite Htext.
Qed.

Lemma split_spaceless (t rest : string) :
  spaceless t = true →
  split " " (t +:+ String " " rest) = t :: split " " rest.
Proof.
  induction t as [|c t IH]; intros Ht.
  - by rewrite append_nil.
  - simpl in Ht. apply andb_true_iff in Ht as [Hc Ht].
    apply negb_true_iff, bool_decide_eq_false in Hc.
    rewrite append_cons. simpl.
    by rewrite bool_decide_eq_false_2, IH by done.
Qed.

Lemma split_head_spaceless (t : string) :
  spaceless t = true → split " " t = [t].
Proof.
  induction t as [|c t IH]; intros Ht; [done|].
  simpl in Ht. apply andb_true_iff in Ht as [Hc Ht].
  apply negb_true_iff, bool_decide_eq_false in Hc.
  simpl. by rewrite bool_decide_eq_false_2, IH by done.
Qed.

(** X23.  The token is the text between "Bearer " and the next space:
    for a token without spaces and of at least 16 characters, the header
    "Bearer <token>" gives that token, and so does the header followed by
    a space and anything whatsoever, which is ignored. *)
Theorem bearerToken_reads_first_word (tok trailer : string) body :
  spaceless tok = true → (16 ≤ String.length tok)%nat →
  bearerToken {| authorization := Some ("Bearer " +:+ tok); body := body |}
  = Some tok
  ∧ bearerToken
      {| authorization := Some ("Bearer " +:+ tok +:+ String " " trailer);
         body := body |}
    = Some tok.
Proof.
  intros Hspaceless Hlen.
  assert (∀ rest, String.prefix "Bearer " ("Bearer " +:+ rest) = true)
    as Hprefix by (intros rest; apply prefix_app).
  split; apply bearerToken_Some; eexists; (split; [reflexivity|]);
    (split; [apply Hprefix|]); (split; [|done]).
  - change ("Bearer " +:+ tok) with ("Bearer" +:+ String " " tok).
    rewrite (split_spaceless "Bearer" tok eq_refl).
    by rewrite split_head_spaceless.
  - change ("Bearer " +:+ tok +:+ String " " trailer)
      with ("Bearer" +:+ String " " (tok +:+ String " " trailer)).
    rewrite (split_spaceless "Bearer" (tok +:+ String " " trailer) eq_refl).
    by rewrite split_spaceless.
Qed.

Lemma bearerToken_reads_first_word_witness :
  bearerToken
    {| authorization := Some "Bearer 0123456789abcdef0123 and more";
       body := None |}
  = Some "0123456789abcdef0123"%string.
Proof.
  exact (proj2 (bearerToken_reads_first_word
                  "0123456789abcdef0123" "and more" None
                  eq_refl ltac:(simpl; lia))).
Defined.

Lemma POST_checks_numbers (request : Request) (a : Accepted) :
  POST_checks request = inr a →
  0 ≤ totalSeconds a
  ∧ ∀ lang v, (lang, v) ∈ entriesOf (languages a) →
      ∃ n, v = JNumber n ∧ 0 ≤ n.
Proof.
  unfold POST_checks. intros H.
  repeat case_match; simplify_eq; cbn [totalSeconds languages];
    (split; [by apply Z.ltb_ge | by apply firstInvalid_None]).
Qed.

Lemma languagesMap_nonneg (langs : JSON) lang v :
  (∀ lang v, (lang, v) ∈ entriesOf langs → ∃ n, v = JNumber n ∧ 0 ≤ n) →
  languagesMap langs !! lang = Some v → 0 ≤ v.
Proof.
  intros Hvalid Hlookup. unfold languagesMap in Hlookup.
  apply elem_of_list_to_map_2 in Hlookup.
  apply list_elem_of_fmap in Hlookup as ([lang' v'] & [= -> ->] & Hin).
  destruct (Hvalid _ _ Hin) as (n & -> & Hn). done.
Qed.

(** X24.  What passes the checks is never clamped by the merge: the
    counts handed to mergeTrackingData are all non-negative, so on an
    existing document without negative counts every language of the
    request ends up at the plain sum of the stored and the incoming
    seconds, and totalSeconds does not go down. *)
Theorem accepted_request_is_not_clamped
    (request : Request) (a : Accepted) (existing : Tracking.ITracking) :
  let incoming := languagesMap (languages a) in
  let merged := Tracking.mergeExisting existing (totalSeconds a) incoming in
  POST_checks request = inr a →
  (∀ lang v, Tracking.languages existing !! lang = Some v → 0 ≤ v) →
  (∀ lang v, incoming !! lang = Some v → 0 ≤ v)
  ∧ (∀ lang seconds, incoming !! lang = Some seconds →
       Tracking.languages merged !! lang =
       Some (default 0 (Tracking.languages existing !! lang) + seconds))
  ∧ Tracking.totalSeconds existing ≤ Tracking.totalSeconds merged.
Proof.
  intros incoming merged Haccepted Hexisting.
  destruct (POST_checks_numbers _ _ Haccepted) as [Htotal Hvalid].
  assert (∀ lang v, incoming !! lang = Some v → 0 ≤ v) as Hincoming
    by (intros lang v; by apply languagesMap_nonneg).
  split; [done|]. split; [|cbn; lia].
  intros lang seconds Hlang. subst merged.
  rewrite mergeExisting_languages_lookup, Hlang, or0_default.
  f_equal. apply Z.max_r. pose proof (Hincoming _ _ Hlang).
  destruct (Tracking.languages existing !! lang) as [v|] eqn:Hv; cbn; [|lia].
  pose proof (Hexisting _ _ Hv). lia.
Qed.

Lemma accepted_request_is_not_clamped_witness :
  Tracking.languages
    (Tracking.mergeExisting Scenario.tracked 30
       (languagesMap
          (JObject [ ("go"%string, JNumber 10);
                     ("rust"%string, JNumber 20) ])))
  !! "go"%string = Some (120 + 10).
Proof.
  destruct (accepted_request_is_not_clamped Fixtures.sync_request
              {| token := "0123456789abcdef0123"; userId := "u1";
                 date := JString "2024-01-01"; totalSeconds := 30;
                 languages :=
                   JObject [ ("go"%string, JNumber 10);
                             ("rust"%string, JNumber 20) ] |}
              Scenario.tracked)
    as (_ & Hsum & _).
  - by vm_compute.
  - intros lang v H. cbn in H.
    apply lookup_singleton_Some in H as [_ <-]. lia.
  - exact (Hsum "go"%string 10 eq_refl).
Defined.

(** ** mergeTrackingData: first sync and footprint *)

(** X25.  The first sync of a day through the API stores the request as
    it is: with no document for (userId, date), a non-empty userId, a
    date in YYYY-MM-DD form and a non-negative totalSeconds, the call
    resolves to a new document with exactly the given fields, the
    languages taken over unclamped (negative counts included), and the
    collection gains that document and nothing else.  The userId is
    printable ASCII without blanks and the language names are keys
    Mongoose takes. *)
Theorem mergeTrackingData_first_sync
    userId date' total (incoming : gmap string Z) collection :
  Stored.modelled userId incoming →
  collection !! (userId, date') = None →
  userId ≠ ""%string → Tracking.matchesDate date' = true → 0 ≤ total →
  Tracking.mergeTrackingData userId date' total incoming collection =
  (Tracking.Resolved (Tracking.mkTracking userId date' total incoming),
   <[(userId, date') := Tracking.mkTracking userId date' total incoming]>
     collection).
Proof.
  intros _ Habsent Huser Hdate Htotal.
  unfold Tracking.mergeTrackingData. rewrite Habsent.
  unfold entries. rewrite list_to_map_to_list.
  unfold Tracking.invalid_userId, Tracking.invalid_date,
    Tracking.invalid_totalSeconds. cbn.
  assert (date' ≠ ""%string) as Hne by (intros ->; done).
  rewrite !bool_decide_eq_false_2 by done.
  rewrite Hdate, (proj2 (Z.ltb_ge _ _)) by done. done.
Qed.

Lemma mergeTrackingData_first_sync_witness :
  Tracking.mergeTrackingData "u1" "2024-01-01" 30
    Scenario.negative_languages ∅ =
  (Tracking.Resolved
     (Tracking.mkTracking "u1" "2024-01-01" 30 Scenario.negative_languages),
   {[ ("u1"%string, "2024-01-01"%string) :=
        Tracking.mkTracking "u1" "2024-01-01" 30
          Scenario.negative_languages ]}).
Proof.
  apply (mergeTrackingData_first_sync "u1" "2024-01-01" 30
           Scenario.negative_languages ∅);
    [|reflexivity|done|reflexivity|lia].
  split; [reflexivity|]. intros lang [v Hv].
  unfold Scenario.negative_languages in Hv.
  apply lookup_insert_Some in Hv as [[<- _]|[_ Hv]]; [reflexivity|].
  apply lookup_singleton_Some in Hv as [<- _]. reflexivity.
Defined.

(** X26.  A call of mergeTrackingData touches one document at most: the
    documents of other users and days are as before; a call that ends in
    a ValidationError leaves the whole collection as it was; a call that
    resolves has stored the document it returns under (userId, date), and
    that document never has a negative totalSeconds.  The userId is
    printable ASCII without blanks and the language names are keys
    Mongoose takes. *)
Theorem mergeTrackingData_footprint
    userId date' total (incoming : gmap string Z) collection :
  let run := Tracking.mergeTrackingData userId date' total incoming
               collection in
  Stored.modelled userId incoming →
  (∀ key, key ≠ (userId, date') → run.2 !! key = collection !! key)
  ∧ (∀ paths, run.1 = Tracking.ValidationError paths → run.2 = collection)
  ∧ (∀ doc, run.1 = Tracking.Resolved doc →
       run.2 !! (userId, date') = Some doc
       ∧ 0 ≤ Tracking.totalSeconds doc).
Proof.
  cbv zeta. intros _.
  unfold Tracking.mergeTrackingData, Tracking.validated,
    Tracking.invalid_totalSeconds.
  destruct (collection !! (userId, date')) as [existing|]; cbn.
  - destruct (Z.ltb_spec (Tracking.totalSeconds existing + total) 0); cbn.
    + by repeat split.
    + split; [intros key Hkey; by rewrite lookup_insert_ne|].
      split; [done|]. intros doc [= <-].
      by rewrite lookup_insert_eq.
  - destruct (Tracking.invalid_userId _ ++ Tracking.invalid_date _ ++ _)
      eqn:Hpaths; cbn; [|by repeat split].
    split; [intros key Hkey; by rewrite lookup_insert_ne|].
    split; [done|]. intros doc [= <-]. rewrite lookup_insert_eq.
    split; [done|]. cbn.
    apply app_eq_nil in Hpaths as [_ Hpaths].
    apply app_eq_nil in Hpaths as [_ Hpaths].
    destruct (Z.ltb_spec total 0); [done|lia].
Qed.

Lemma mergeTrackingData_footprint_witness :
  (Tracking.mergeTrackingData "u1" "2024-01-01" (-500)
     Scenario.negative_languages
     {[ ("u1"%string, "2024-01-01"%string) := Scenario.tracked ]}).2
  = {[ ("u1"%string, "2024-01-01"%string) := Scenario.tracked ]}.
Proof.
  destruct (mergeTrackingData_footprint "u1" "2024-01-01" (-500)
              Scenario.negative_languages
              {[ ("u1"%string, "2024-01-01"%string) := Scenario.tracked ]})
    as (_ & Hrejected & _).
  - split; [reflexivity|]. intros lang [v Hv].
    unfold Scenario.negative_languages in Hv.
    apply lookup_insert_Some in Hv as [[<- _]|[_ Hv]]; [reflexivity|].
    apply lookup_singleton_Some in Hv as [<- _]. reflexivity.
  - apply (Hrejected ["totalSeconds"%string]). by vm_compute.
Defined.

(** ** connectToDatabase: the cached connection *)

Import Mongoose.

(** X27.  Once a call of connectToDatabase has returned a connection,
    every later call returns that same connection, whatever a new
    [mongoose.connect] would have done: none is made, and the cache does
    not change.  A call makes one [mongoose.connect] at most. *)
Theorem connectToDatabase_connects_once dial w c w1 :
  connectToDatabase dial w = (inr c, w1) →
  (connects w1 ≤ S (connects w))%nat
  ∧ ∀ dials,
      connectEach dials w1 = (replicate (length dials) (inr c), w1).
Proof.
  intros Hrun.
  assert (conn (cached w1) = Some c ∧ (connects w1 ≤ S (connects w))%nat)
    as [Hconn Hcount].
  { unfold connectToDatabase in Hrun.
    destruct (conn (cached w)) as [c0|] eqn:Hc.
    - simplify_eq. split; [done|lia].
    - destruct (promise (cached w)) as [[e|c0]|]; [| |destruct dial as [e|c0]];
        simplify_eq/=; (split; [done|lia]). }
  split; [done|]. intros dials.
  induction dials as [|d dials IH]; [done|].
  cbn. unfold connectToDatabase at 1. rewrite Hconn. by rewrite IH.
Qed.

Lemma connectToDatabase_connects_once_witness :
  connectEach [inl (ErrorObject "ECONNREFUSED"); inr Connected]
    (connectToDatabase (inr Connected) fresh).2
  = ([inr Connected; inr Connected],
     (connectToDatabase (inr Connected) fresh).2).
Proof.
  exact (proj2 (connectToDatabase_connects_once
                  (inr Connected) fresh Connected
                  (connectToDatabase (inr Connected) fresh).2 eq_refl)
               [inl (ErrorObject "ECONNREFUSED"); inr Connected]).
Defined.

(** X28.  A failed attempt is not cached: on an empty cache, a
    [mongoose.connect] that rejects makes the call reject with the same
    error and leaves the cache empty again, so the next call dials anew
    and returns whatever that attempt gives. *)
Theorem connectToDatabase_retries_after_failure error dial w :
  conn (cached w) = None → promise (cached w) = None →
  ∃ w1,
    connectToDatabase (inl error) w = (inl error, w1)
    ∧ cached w1 = {| conn := None; promise := None |}
    ∧ connects w1 = S (connects w)
    ∧ (connectToDatabase dial w1).1 = dial
    ∧ connects (connectToDatabase dial w1).2 = S (S (connects w)).
Proof.
  intros Hconn Hpromise. unfold connectToDatabase at 1.
  rewrite Hconn, Hpromise. cbn. eexists. split; [reflexivity|].
  split; [done|]. split; [done|].
  unfold connectToDatabase. cbn. by destruct dial.
Qed.

Lemma connectToDatabase_retries_after_failure_witness :
  ∃ w1,
    connectToDatabase (inl (ErrorObject "ECONNREFUSED")) fresh
    = (inl (ErrorObject "ECONNREFUSED"), w1)
    ∧ cached w1 = {| conn := None; promise := None |}
    ∧ connects w1 = 1%nat
    ∧ (connectToDatabase (inr Connected) w1).1 = inr Connected
    ∧ connects (connectToDatabase (inr Connected) w1).2 = 2%nat.
Proof.
  apply (connectToDatabase_retries_after_failure
           (ErrorObject "ECONNREFUSED") (inr Connected) fresh);
    reflexivity.
Defined.
